(** * pybioclim: sampling of BIOCLIM raster layers ([src/get_data.py])

    A shallow embedding of [get_data.py] and the properties of its three
    sampling operations [get_values], [get_average] and
    [get_spatial_variance].

    Conventions of the embedding.
    - Python numbers (the cells of the raster, coordinates, radii, the
      results) are exact rationals [Q]; [float(x)] is the identity, so
      rounding of binary floating point is abstracted away.  [get_average]
      adds the cells exactly; [get_average_with] takes the addition of the
      numpy scalars as a parameter, for element types in which it is not
      exact.
    - The module-level dictionaries [loaded_datasets] and [metadata] form
      the state that every operation threads; an exception leaves the
      state as it was when it was raised.
    - Calls that leave the module ([find_data], [gdal.Open],
      [read_header]) are parameters of the development and are recorded
      in a ghost [trace], which no operation reads. *)

From Stdlib Require Import QArith Qround Qabs.
From stdpp Require Import base gmap strings list.

Local Open Scope string_scope.

(** ** Python values *)

Inductive exn : Type :=
| Exception (msg : string)
| KeyError (key : string)
| IndexError.

Inductive result (A : Type) : Type :=
| Ok (a : A)
| Raise (e : exn).
Arguments Ok {A} a.
Arguments Raise {A} e.

Definition bindR {A B} (m : result A) (k : A → result B) : result B :=
  match m with
  | Ok a => k a
  | Raise e => Raise e
  end.

Notation "x <~ m ;; k" := (bindR m (fun x => k))
  (at level 100, m at next level, right associativity).

(** A list comprehension whose element expression can raise. *)
Fixpoint mapR {A B} (f : A → result B) (l : list A) : result (list B) :=
  match l with
  | [] => Ok []
  | x :: l' => y <~ f x ;; ys <~ mapR f l' ;; Ok (y :: ys)
  end.

(** [s.endswith(suffix)] and [s[:-k]]. *)
Definition endswith (s suffix : string) : bool :=
  let n := String.length s in
  let m := String.length suffix in
  (m <=? n)%nat && String.eqb (String.substring (n - m) m s) suffix.

Definition drop_last (k : nat) (s : string) : string :=
  String.substring 0 (String.length s - k) s.

(** [float(x)]: numbers are exact rationals. *)
Definition float (x : Q) : Q := x.

Definition Qlt_bool (x y : Q) : bool := negb (Qle_bool y x).

(** The builtin [sum] with an exact addition: a left fold that starts
    from 0.  [sum_with] below is the same fold for the addition of numpy
    scalars. *)
Definition sum (values : list Q) : Q := fold_left Qplus values 0%Q.

Definition len (values : list Q) : Q := inject_Z (Z.of_nat (length values)).

(** [numpy.var] with its default [ddof = 0]: the mean of the squared
    deviations from the mean. *)
Definition np_mean (values : list Q) : Q := (sum values / len values)%Q.

Definition np_var (values : list Q) : Q :=
  let arrmean := np_mean values in
  np_mean (map (fun x => ((x - arrmean) * (x - arrmean))%Q) values).

(** ** The raster

    [data.ReadAsArray()] is a two-dimensional numpy array.  Indexing it
    with a pair follows numpy: along an axis of length [n] an index [i]
    is accepted when [-n <= i < n], a negative one counting from the end;
    any other index raises [IndexError]. *)

Definition np_axis (n : nat) (i : Z) : option nat :=
  if decide (0 ≤ i < Z.of_nat n)%Z then Some (Z.to_nat i)
  else if decide (- Z.of_nat n ≤ i < 0)%Z then Some (Z.to_nat (i + Z.of_nat n))
  else None.

Definition getitem (raster : list (list Q)) (pos : Z * Z) : result Q :=
  match np_axis (length raster) (fst pos) with
  | None => Raise IndexError
  | Some r =>
      match raster !! r with
      | None => Raise IndexError
      | Some row =>
          match np_axis (length row) (snd pos) with
          | None => Raise IndexError
          | Some c =>
              match row !! c with
              | None => Raise IndexError
              | Some v => Ok v
              end
          end
      end
  end.

(** The GDAL dataset object, as far as [get_data.py] looks at it. *)
Record dataset : Type := {
  GetDescription : string;
  RasterYSize : Z;
  RasterXSize : Z;
  ReadAsArray : list (list Q)
}.

(** ** Module state *)

Inductive event : Type :=
| EvFindData (file : string)
| EvOpen (file path : string)
| EvReadHeader (variable : string).

Record state : Type := {
  loaded_datasets : gmap string dataset;
  metadata : gmap string (gmap string Q);
  trace : list event
}.

Definition M (A : Type) : Type := state → result A * state.

Definition ret {A} (a : A) : M A := fun s => (Ok a, s).

Definition raise {A} (e : exn) : M A := fun s => (Raise e, s).

Definition bindM {A B} (m : M A) (k : A → M B) : M B :=
  fun s =>
    match m s with
    | (Ok a, s') => k a s'
    | (Raise e, s') => (Raise e, s')
    end.

Notation "x <- m ;; k" := (bindM m (fun x => k))
  (at level 100, m at next level, right associativity).

Definition liftR {A} (r : result A) : M A := fun s => (r, s).

Definition log (e : event) : M unit :=
  fun s => (Ok tt, {| loaded_datasets := loaded_datasets s;
                      metadata := metadata s;
                      trace := trace s ++ [e] |}).

Definition store_dataset (file : string) (d : dataset) : M unit :=
  fun s => (Ok tt, {| loaded_datasets := <[file := d]> (loaded_datasets s);
                      metadata := metadata s;
                      trace := trace s |}).

(** [metadata[file][key]], raising [KeyError] as a dictionary does. *)
Definition md_lookup (md : gmap string (gmap string Q)) (file key : string)
  : result Q :=
  match md !! file with
  | None => Raise (KeyError file)
  | Some header =>
      match header !! key with
      | None => Raise (KeyError key)
      | Some v => Ok v
      end
  end.

(** Modelled from the spec: [coords.xy_coords] is imported by
    [get_data.py] but its module is not part of the sources.  Section 4.1
    gives row = floor((origin.lat - point.lat) / cellSize.latStep) and
    col = floor((point.lon - origin.lon) / cellSize.lonStep), with no
    bounds check against the raster size. *)
Definition xy_coords (lat_lon ul dims : Q * Q) (size : Z * Z) : Z * Z :=
  (Qfloor ((fst ul - fst lat_lon) / fst dims),
   Qfloor ((snd lat_lon - snd ul) / snd dims)).

Definition attributes : Type :=
  dataset * list (list Q) * Q * (Q * Q) * (Q * Q) * (Z * Z).

Section GetData.

(** [config.find_data]: the path of a data file, or [None]. *)
Variable find_data : string → option string.

(** [gdal.Open], called on a path that [find_data] returned; the dataset
    it gives is a value that nothing in the module modifies. *)
Variable gdal_Open : string → dataset.

(** [read_headers.read_header]: parses a header file into [metadata];
    it may raise. *)
Variable read_header :
  string → gmap string (gmap string Q) → option exn * gmap string (gmap string Q).

(** [coords.points_within_distance point radius ul dims]. *)
Variable points_within_distance : Q * Q → Q → Q * Q → Q * Q → list (Q * Q).

Definition call_read_header (variable : string) : M unit :=
  fun s =>
    let '(e, md) := read_header variable (metadata s) in
    let s' := {| loaded_datasets := loaded_datasets s;
                 metadata := md;
                 trace := trace s ++ [EvReadHeader variable] |} in
    match e with
    | None => (Ok tt, s')
    | Some e => (Raise e, s')
    end.

Definition bil_name (file : string) : string :=
  if endswith file ".bil" then file else file +:+ ".bil".

Definition not_found_message (file : string) : string :=
  "Couldn't find " +:+ file +:+ " in working directory or package data.".

Definition get_dataset (file : string) : M dataset :=
  let file := bil_name file in
  _ <- (fun s =>
          match loaded_datasets s !! file with
          | Some _ => ret tt s
          | None =>
              (_ <- log (EvFindData file) ;;
               match find_data file with
               | None => raise (Exception (not_found_message file))
               | Some path =>
                   _ <- log (EvOpen file path) ;;
                   store_dataset file (gdal_Open path)
               end) s
          end) ;;
  _ <- (fun s =>
          match metadata s !! file with
          | Some _ => ret tt s
          | None => call_read_header (drop_last (String.length ".bil") file) s
          end) ;;
  (fun s =>
     match loaded_datasets s !! file with
     | Some d => ret d s
     | None => raise (KeyError file) s
     end).

Definition extract_attributes (file : string) : M attributes :=
  data <- get_dataset file ;;
  let raster := ReadAsArray data in
  fun s =>
    let md := metadata s in
    let no_value :=
      match md_lookup md file "nodata" with
      | Ok v => v
      | Raise _ => (-9999)%Q
      end in
    liftR (ulymap <~ md_lookup md file "ulymap" ;;
           ulxmap <~ md_lookup md file "ulxmap" ;;
           let ul := (float ulymap, float ulxmap) in
           ydim <~ md_lookup md file "ydim" ;;
           xdim <~ md_lookup md file "xdim" ;;
           let dims := (float ydim, float xdim) in
           let size := (RasterYSize data, RasterXSize data) in
           Ok (data, raster, no_value, ul, dims, size)) s.

Definition get_values (file : string) (points : list (Q * Q))
  : M (list (option Q)) :=
  attrs <- extract_attributes file ;;
  let '(data, raster, no_value, ul, dims, size) := attrs in
  liftR (result0 <~ mapR (fun '(lat, lon) =>
                            v <~ getitem raster (xy_coords (lat, lon) ul dims size) ;;
                            Ok (float v)) points ;;
         Ok (map (fun value => if Qeq_bool value no_value then None else Some value)
               result0)).

(** [[raster[pos] for pos in raster_positions if raster[pos] != no_value]]:
    the condition is evaluated first, and the element is read again when
    it holds. *)
Fixpoint valid_values (raster : list (list Q)) (no_value : Q)
    (raster_positions : list (Z * Z)) : result (list Q) :=
  match raster_positions with
  | [] => Ok []
  | pos :: rest =>
      c <~ getitem raster pos ;;
      if negb (Qeq_bool c no_value)
      then v <~ getitem raster pos ;;
           vs <~ valid_values raster no_value rest ;;
           Ok (v :: vs)
      else valid_values raster no_value rest
  end.

(** The cells around one point (lines 90-91 and 126-127). *)
Definition raster_positions (ul dims : Q * Q) (size : Z * Z) (radius : Q)
    (point : Q * Q) : list (Z * Z) :=
  let within := points_within_distance point radius ul dims in
  map (fun '(lat, lon) => xy_coords (lat, lon) ul dims size) within.

(** The values collected around one point (lines 92 and 128). *)
Definition neighbourhood_values (raster : list (list Q)) (no_value : Q)
    (ul dims : Q * Q) (size : Z * Z) (radius : Q) (point : Q * Q)
  : result (list Q) :=
  valid_values raster no_value (raster_positions ul dims size radius point).

(** One turn of the loop of [get_average]. *)
Definition average_at (raster : list (list Q)) (no_value : Q)
    (ul dims : Q * Q) (size : Z * Z) (radius : Q) (point : Q * Q)
  : result (option Q) :=
  values <~ neighbourhood_values raster no_value ul dims size radius point ;;
  if (length values =? 0)%nat then Ok None
  else Ok (Some (sum values / float (len values))%Q).

Definition get_average (file : string) (points : list (Q * Q)) (radius : Q)
  : M (list (option Q)) :=
  attrs <- extract_attributes file ;;
  let '(data, raster, no_value, ul, dims, size) := attrs in
  liftR (mapR (average_at raster no_value ul dims size radius) points).

(** One turn of the loop of [get_spatial_variance]. *)
Definition variance_at (raster : list (list Q)) (no_value : Q)
    (ul dims : Q * Q) (size : Z * Z) (radius : Q) (point : Q * Q)
  : result (option Q) :=
  if Qlt_bool 60 (Qabs (fst point)) then Ok None
  else
    values <~ neighbourhood_values raster no_value ul dims size radius point ;;
    if (length values =? 0)%nat then Ok None
    else Ok (Some (float (np_var values))).

Definition get_spatial_variance (file : string) (points : list (Q * Q))
    (radius : Q) : M (list (option Q)) :=
  attrs <- extract_attributes file ;;
  let '(data, raster, no_value, ul, dims, size) := attrs in
  liftR (mapR (variance_at raster no_value ul dims size radius) points).

(** *** The process: calls into the module, one after the other *)

Inductive call : Type :=
| CallGetDataset (file : string)
| CallExtractAttributes (file : string)
| CallGetValues (file : string) (points : list (Q * Q))
| CallGetAverage (file : string) (points : list (Q * Q)) (radius : Q)
| CallGetSpatialVariance (file : string) (points : list (Q * Q)) (radius : Q).

Definition call_file (c : call) : string :=
  match c with
  | CallGetDataset file | CallExtractAttributes file | CallGetValues file _
  | CallGetAverage file _ _ | CallGetSpatialVariance file _ _ => file
  end.

(** The state that a call leaves, whether it returns or raises. *)
Definition run (c : call) (s : state) : state :=
  match c with
  | CallGetDataset file => snd (get_dataset file s)
  | CallExtractAttributes file => snd (extract_attributes file s)
  | CallGetValues file points => snd (get_values file points s)
  | CallGetAverage file points radius => snd (get_average file points radius s)
  | CallGetSpatialVariance file points radius =>
      snd (get_spatial_variance file points radius s)
  end.

(** [loaded_datasets = {}] when the module is imported (line 10); the
    [metadata] dictionary belongs to [read_headers] and is whatever that
    module made it. *)
Inductive reachable : state → Prop :=
| reachable_start md :
    reachable {| loaded_datasets := ∅; metadata := md; trace := [] |}
| reachable_call c s : reachable s → reachable (run c s).

(** The statements of [get_dataset] after the first, from a state in
    which [loaded_datasets[file]] is [d]. *)
Definition header_then_return (file : string) (d : dataset) (s : state)
  : result dataset * state :=
  match metadata s !! file with
  | Some _ => (Ok d, s)
  | None =>
      match call_read_header (drop_last 4 file) s with
      | (Ok _, s1) => (Ok d, s1)
      | (Raise e, s1) => (Raise e, s1)
      end
  end.

Definition with_dataset (s : state) (file path : string) : state :=
  {| loaded_datasets := <[file := gdal_Open path]> (loaded_datasets s);
     metadata := metadata s;
     trace := trace s ++ [EvFindData file; EvOpen file path] |}.

(** Every cached dataset is what [gdal.Open] gave for the path that
    [find_data] resolves its key to. *)
Definition cache_resolved (s : state) : Prop :=
  ∀ k d, loaded_datasets s !! k = Some d →
         ∃ path, find_data k = Some path ∧ d = gdal_Open path.

End GetData.

Definition with_trace (s : state) (es : list event) : state :=
  {| loaded_datasets := loaded_datasets s;
     metadata := metadata s;
     trace := trace s ++ es |}.

(** The keys under which the trace records a [gdal.Open]. *)
Definition opened (tr : list event) : list string :=
  omap (fun e => match e with EvOpen file _ => Some file | _ => None end) tr.

(** The trace records one [gdal.Open] for each cached key and none for
    any other key. *)
Definition cache_logged (s : state) : Prop :=
  NoDup (opened (trace s)) ∧
  ∀ k, k ∈ opened (trace s) ↔ is_Some (loaded_datasets s !! k).

(** The default [radius=40] of [get_average] and [get_spatial_variance]. *)
Definition default_radius : Q := 40%Q.

(** ** The neighbourhood enumerator *)

Section Enumerator.

(** [is_within centre q radius]: the great-circle distance
    ([coords.distance], haversine on a sphere of radius 6371 km) from
    [centre] to [q] is at most [radius] km. *)
Variable is_within : Q * Q → Q * Q → Q → bool.

(** The number of rows and of columns on each side of the centre that a
    circle of [radius] km can reach. *)
Variable half_extent : Q * Q → Q → Q * Q → nat * nat.

(** The integers [-n, ..., n]. *)
Definition offsets (n : nat) : list Z :=
  map (fun k => (Z.of_nat k - Z.of_nat n)%Z) (seq 0 (2 * n + 1)).

(** The centre of the cell in row [r] and column [c]. *)
Definition cell_centre (ul dims : Q * Q) (rc : Z * Z) : Q * Q :=
  ((fst ul - (inject_Z (fst rc) + (1 # 2)) * fst dims)%Q,
   (snd ul + (inject_Z (snd rc) + (1 # 2)) * snd dims)%Q).

(** Modelled from the spec: [coords.points_within_distance] is imported
    by [get_data.py] but its module is not part of the sources.  Section
    4.2: the candidates are the grid-aligned points (cell centres) of a
    bounding box around the centre, stepping by the cell size; a
    candidate is kept when its geodesic distance to the centre is at most
    the radius, the boundary included; with radius 0 the result is the
    centre point itself. *)
Definition grid_points_within_distance
    (centre : Q * Q) (radius : Q) (ul dims : Q * Q) : list (Q * Q) :=
  if Qeq_bool radius 0 then [centre]
  else
    let '(r0, c0) := xy_coords centre ul dims (0%Z, 0%Z) in
    let '(nlat, nlon) := half_extent centre radius dims in
    let candidates :=
      i ← offsets nlat; j ← offsets nlon;
      [cell_centre ul dims ((r0 + i)%Z, (c0 + j)%Z)] in
    filter (fun q => is_within centre q radius = true) candidates.

End Enumerator.

(** ** A small layer on the equator

    A raster of five rows and five columns of one degree each, with its
    upper-left corner at latitude 2.5 and longitude -2.5, so that the point
    (0, 0) is the centre of the middle cell.  So close to the equator a
    degree is 6371 * pi / 180 = 111.195 km in both directions, which is what
    [equator_within] and [equator_extent] use: the four cells next to the
    middle one are 111.2 km away, the diagonal ones 157.3 km, the cells two
    steps away 222.4 km. *)

Module Fixture.

Definition km_per_degree : Q := 111195 # 1000.

Definition equator_within (centre q : Q * Q) (radius : Q) : bool :=
  let dlat := (fst q - fst centre)%Q in
  let dlon := (snd q - snd centre)%Q in
  Qle_bool 0 radius &&
  Qle_bool (km_per_degree * km_per_degree * (dlat * dlat + dlon * dlon))
           (radius * radius).

Definition equator_extent (centre : Q * Q) (radius : Q) (dims : Q * Q)
  : nat * nat :=
  (Z.to_nat (Qceiling (radius / (km_per_degree * fst dims))),
   Z.to_nat (Qceiling (radius / (km_per_degree * snd dims)))).

Definition points_within_distance : Q * Q → Q → Q * Q → Q * Q → list (Q * Q) :=
  grid_points_within_distance equator_within equator_extent.

Definition hills : list (list Q) :=
  [ [7; 7;  7; 7; 7];
    [7; 4; 10; 4; 7];
    [7; 0;  0; 0; 7];
    [7; 4; 10; 4; 7];
    [7; 7;  7; 7; 7] ]%Q.

(** The same layer with no observation in the middle cell. *)
Definition lake : list (list Q) :=
  [ [7; 7;     7; 7; 7];
    [7; 4;    10; 4; 7];
    [7; 0; -9999; 0; 7];
    [7; 4;    10; 4; 7];
    [7; 7;     7; 7; 7] ]%Q.

Definition find_data (file : string) : option string :=
  if String.eqb file "hills.bil" then Some "data/hills.bil"
  else if String.eqb file "lake.bil" then Some "data/lake.bil"
  else None.

Definition gdal_Open (path : string) : dataset :=
  {| GetDescription := path;
     RasterYSize := 5;
     RasterXSize := 5;
     ReadAsArray := if String.eqb path "data/lake.bil" then lake else hills |}.

Definition header : gmap string Q :=
  {[ "ulymap" := (5 # 2)%Q; "ulxmap" := (- 5 # 2)%Q;
     "ydim" := 1%Q; "xdim" := 1%Q ]}.

(** The header of [lake] names its no-data value; that of [hills] leaves
    it out. *)
Definition read_header (variable : string) (md : gmap string (gmap string Q))
  : option exn * gmap string (gmap string Q) :=
  if String.eqb variable "lake"
  then (None, <[variable := <["nodata" := (-9999)%Q]> header]> md)
  else (None, <[variable := header]> md).

Definition start : state :=
  {| loaded_datasets := ∅; metadata := ∅; trace := [] |}.

(** The state after a first call on each layer. *)
Definition lake_loaded : state :=
  snd (extract_attributes find_data gdal_Open read_header "lake" start).

Definition hills_loaded : state :=
  snd (extract_attributes find_data gdal_Open read_header "hills" start).

Definition values := get_values find_data gdal_Open read_header.
Definition average := get_average find_data gdal_Open read_header points_within_distance.
Definition variance :=
  get_spatial_variance find_data gdal_Open read_header points_within_distance.

End Fixture.

(** ** What the spec calls the mean and the population variance

    These two definitions follow the words of the spec (sum divided by
    count; mean of the squared deviations from the mean), independently of
    how [sum] and [numpy.var] traverse the list. *)

Definition total (values : list Q) : Q := fold_right Qplus 0%Q values.

Definition arithmetic_mean (values : list Q) : Q :=
  (total values / inject_Z (Z.of_nat (length values)))%Q.

Definition population_variance (values : list Q) : Q :=
  arithmetic_mean
    (map (fun x => ((x - arithmetic_mean values) ^ 2)%Q) values).

(** The cells that hold an observation. *)
Definition observed (no_value : Q) (cells : list Q) : list Q :=
  List.filter (fun c => negb (Qeq_bool c no_value)) cells.

(** What the spec says of a result of [sampleAverage], given the cells
    of the neighbourhood. *)
Definition mean_of_observed (no_value : Q) (cells : list Q) (r : option Q) : Prop :=
  (observed no_value cells = [] → r = None) ∧
  (observed no_value cells ≠ [] →
   ∃ m, r = Some m ∧ (m == arithmetic_mean (observed no_value cells))%Q).

(** What the spec says of a result of [sampleVariance] at a point of
    latitude at most 60, given the cells of the neighbourhood. *)
Definition variance_of_observed (no_value : Q) (cells : list Q) (r : option Q)
  : Prop :=
  (observed no_value cells = [] → r = None) ∧
  (observed no_value cells ≠ [] →
   ∃ q, r = Some q ∧ (q == population_variance (observed no_value cells))%Q).

(** What the loops of [get_average] and of [get_spatial_variance] compute
    from the cells of a neighbourhood. *)
Definition average_of_cells (no_value : Q) (cells : list Q) : option Q :=
  match observed no_value cells with
  | [] => None
  | _ :: _ => Some (sum (observed no_value cells)
                    / float (len (observed no_value cells)))%Q
  end.

Definition variance_of_cells (no_value : Q) (cells : list Q) : option Q :=
  match observed no_value cells with
  | [] => None
  | _ :: _ => Some (float (np_var (observed no_value cells)))
  end.

(** The calls that leave the module during one call on [file] from the
    state [s], in order: [find_data] and [gdal.Open] when the layer is not
    cached, then [read_header] when the call got as far as the header test
    and [metadata] has no entry under the name with its extension. *)
Definition external_calls (find_data : string → option string) (s : state)
    (file : string) : list event :=
  let k := bil_name file in
  let header :=
    match metadata s !! k with
    | Some _ => []
    | None => [EvReadHeader (drop_last 4 k)]
    end in
  match loaded_datasets s !! k with
  | Some _ => header
  | None =>
      match find_data k with
      | None => [EvFindData k]
      | Some path => EvFindData k :: EvOpen k path :: header
      end
  end.

(** The first of the four geometry entries that a header lacks, in the
    order in which [extract_attributes] reads them. *)
Definition first_missing_key (header : gmap string Q) : option string :=
  if decide (header !! "ulymap" = None) then Some "ulymap"
  else if decide (header !! "ulxmap" = None) then Some "ulxmap"
  else if decide (header !! "ydim" = None) then Some "ydim"
  else if decide (header !! "xdim" = None) then Some "xdim"
  else None.

(** A cell index inside the array: both components non-negative and
    below the length of their axis. *)
Definition in_raster (raster : list (list Q)) (pos : Z * Z) : Prop :=
  ∃ row, (0 ≤ fst pos)%Z ∧ raster !! Z.to_nat (fst pos) = Some row ∧
         (0 ≤ snd pos < Z.of_nat (length row))%Z.

(** ** The running sum on numpy scalars

    [sum(values)] starts from the Python integer 0 and adds the elements
    one by one with their own [+].  The elements are numpy scalars of the
    element type of the raster, and what their addition does depends on
    that type and on the numpy release: it is exact where numpy promotes
    the running sum to a wider type (numpy 1 with a Python integer on the
    left) and for Python numbers, which is [sum] above; it stays in the
    element type, with wrap-around for fixed-width integers, where numpy
    does not promote (numpy 2).  [add] is that addition. *)
Definition sum_with (add : Q → Q → Q) (values : list Q) : Q :=
  fold_left add values 0%Q.

(** The two's complement value of an integer on 16 bits. *)
Definition int16_wrap (z : Z) : Z := ((z + 32768) mod 65536 - 32768)%Z.

(** [x + y] for two [numpy.int16] scalars, and for the Python integer 0
    and one, under numpy 2. *)
Definition int16_add (x y : Q) : Q :=
  inject_Z (int16_wrap (Qfloor x + Qfloor y)).

(** The loop of [get_average] (lines 88-97) with the addition of the
    scalars made explicit; [average_at] and [get_average] are the case of
    an exact addition. *)
Definition average_at_with (add : Q → Q → Q)
    (points_within_distance : Q * Q → Q → Q * Q → Q * Q → list (Q * Q))
    (raster : list (list Q)) (no_value : Q)
    (ul dims : Q * Q) (size : Z * Z) (radius : Q) (point : Q * Q)
  : result (option Q) :=
  values <~ neighbourhood_values points_within_distance raster no_value
              ul dims size radius point ;;
  if (length values =? 0)%nat then Ok None
  else Ok (Some (sum_with add values / float (len values))%Q).

Definition get_average_with (add : Q → Q → Q)
    (find_data : string → option string) (gdal_Open : string → dataset)
    (read_header : string → gmap string (gmap string Q)
                   → option exn * gmap string (gmap string Q))
    (points_within_distance : Q * Q → Q → Q * Q → Q * Q → list (Q * Q))
    (file : string) (points : list (Q * Q)) (radius : Q)
  : M (list (option Q)) :=
  attrs <- extract_attributes find_data gdal_Open read_header file ;;
  let '(data, raster, no_value, ul, dims, size) := attrs in
  liftR (mapR (average_at_with add points_within_distance raster no_value
                 ul dims size radius) points).

(** Whether [add] is the exact addition at every step of the running
    sum of [values] from [acc]. *)
Fixpoint exact_along (add : Q → Q → Q) (acc : Q) (values : list Q) : Prop :=
  match values with
  | [] => True
  | x :: rest => (add acc x == acc + x)%Q ∧ exact_along add (add acc x) rest
  end.

(** A 16-bit layer on the grid of [Fixture]: two cells of 20000, one row
    north and one row south of the point (0, 0), and no observation
    anywhere else. *)
Module Ridge.

Definition ridge : list (list Q) :=
  [ [-9999; -9999; -9999; -9999; -9999];
    [-9999; -9999; 20000; -9999; -9999];
    [-9999; -9999; -9999; -9999; -9999];
    [-9999; -9999; 20000; -9999; -9999];
    [-9999; -9999; -9999; -9999; -9999] ]%Q.

Definition find_data (file : string) : option string :=
  if String.eqb file "ridge.bil" then Some "data/ridge.bil" else None.

Definition gdal_Open (path : string) : dataset :=
  {| GetDescription := path;
     RasterYSize := 5;
     RasterXSize := 5;
     ReadAsArray := ridge |}.

Definition average (add : Q → Q → Q) :=
  get_average_with add find_data gdal_Open Fixture.read_header
    Fixture.points_within_distance.

End Ridge.

(** The metadata provider behind [Fixture.read_header]. *)
Definition equator_provider (variable : string) : result (gmap string Q) :=
  Ok (if String.eqb variable "lake"
      then <["nodata" := (-9999)%Q]> Fixture.header
      else Fixture.header).

(** Modelled from the spec: [read_headers.read_header] is imported by
    [get_data.py] but its module is not part of the sources.  Section 6:
    the metadata provider, given a layer name, returns the header of that
    layer; sections 3 and 5: the files are immutable for the life of the
    process, and a layer's geometry is read from them.  [provider] is that
    function of the name.  Reading a header stores it in [metadata] under
    the name; a name for which the provider fails raises and stores
    nothing. *)
Definition header_reader (provider : string → result (gmap string Q))
    (variable : string) (md : gmap string (gmap string Q))
  : option exn * gmap string (gmap string Q) :=
  match provider variable with
  | Ok header => (None, <[variable := header]> md)
  | Raise e => (Some e, md)
  end.

(** Every header that [metadata] holds is the one the provider gives for
    its name. *)
Definition headers_from (provider : string → result (gmap string Q))
    (md : gmap string (gmap string Q)) : Prop :=
  ∀ v h, md !! v = Some h → provider v = Ok h.

(** * Properties *)

(** ** Arithmetic of [sum] and [numpy.var] *)

Lemma fold_left_Qplus_shift (l : list Q) (a : Q) :
  (fold_left Qplus l a == a + total l)%Q.
Proof.
  revert a; induction l as [|x l IH]; intros a; simpl.
  - ring.
  - rewrite IH. ring.
Qed.

Lemma sum_total (l : list Q) : (sum l == total l)%Q.
Proof. unfold sum. rewrite fold_left_Qplus_shift. ring. Qed.

Lemma total_ext (f g : Q → Q) (l : list Q) :
  (∀ x, (f x == g x)%Q) → (total (map f l) == total (map g l))%Q.
Proof.
  intros Hfg. induction l as [|x l IH]; simpl; [reflexivity|].
  rewrite IH, (Hfg x). reflexivity.
Qed.

Lemma np_mean_arithmetic_mean (l : list Q) : (np_mean l == arithmetic_mean l)%Q.
Proof.
  unfold np_mean, arithmetic_mean, len. rewrite sum_total. reflexivity.
Qed.

Lemma np_var_population_variance (l : list Q) :
  (np_var l == population_variance l)%Q.
Proof.
  unfold np_var, population_variance.
  rewrite np_mean_arithmetic_mean.
  pose proof (np_mean_arithmetic_mean l) as Hm.
  set (m' := np_mean l) in *. set (m := arithmetic_mean l) in *.
  unfold arithmetic_mean. rewrite !length_map.
  rewrite (total_ext (fun x => (x - m') * (x - m'))%Q (fun x => (x - m) ^ 2)%Q).
  - reflexivity.
  - intros x. rewrite Hm. simpl. ring.
Qed.

Lemma mean_singleton (v : Q) : (sum [v] / float (len [v]))%Q = v.
Proof.
  destruct v as [a b].
  unfold sum, len, float, Qdiv, Qmult, Qplus, Qinv; simpl.
  f_equal; lia.
Qed.

Lemma np_var_singleton (v : Q) : (np_var [v] == 0)%Q.
Proof.
  rewrite np_var_population_variance.
  unfold population_variance, arithmetic_mean, total; simpl.
  field.
Qed.

(** ** Reading the cells of a neighbourhood *)

Lemma valid_values_observed raster no_value positions cells :
  mapR (getitem raster) positions = Ok cells →
  valid_values raster no_value positions = Ok (observed no_value cells).
Proof.
  revert cells; induction positions as [|pos rest IH]; intros cells; simpl.
  - intros [= <-]. reflexivity.
  - destruct (getitem raster pos) as [c|e]; simpl; [|discriminate].
    destruct (mapR (getitem raster) rest) as [cs|e]; simpl; [|discriminate].
    intros [= <-]. rewrite (IH cs eq_refl). simpl.
    destruct (Qeq_bool c no_value); reflexivity.
Qed.

Lemma valid_values_raise raster no_value positions e :
  mapR (getitem raster) positions = Raise e →
  ∃ e', valid_values raster no_value positions = Raise e'.
Proof.
  revert e; induction positions as [|pos rest IH]; intros e; simpl; [discriminate|].
  destruct (getitem raster pos) as [c|e0]; simpl; [|eauto].
  destruct (mapR (getitem raster) rest) as [cs|e1]; simpl; [discriminate|].
  intros _. destruct (IH e1 eq_refl) as [e' He'].
  rewrite He'. destruct (Qeq_bool c no_value); simpl; eauto.
Qed.

Lemma observed_nil_length no_value cells :
  (length (observed no_value cells) =? 0)%nat = true ↔ observed no_value cells = [].
Proof.
  destruct (observed no_value cells); simpl; split; congruence.
Qed.

Lemma mapR_ext {A B} (f g : A → result B) (l : list A) :
  (∀ x, f x = g x) → mapR f l = mapR g l.
Proof.
  intros Hfg. induction l as [|x l IH]; simpl; [reflexivity|].
  rewrite Hfg, IH. reflexivity.
Qed.

Lemma mapR_singleton {A B} (f : A → result B) (x : A) :
  mapR f [x] = (y <~ f x ;; Ok [y]).
Proof. simpl. destruct (f x); reflexivity. Qed.

Lemma mapR_lookup {A B} (f : A → result B) (l : list A) (rs : list B) i x :
  mapR f l = Ok rs → l !! i = Some x → ∃ y, f x = Ok y ∧ rs !! i = Some y.
Proof.
  revert rs i; induction l as [|a l IH]; intros rs i; simpl; [by intros _ ?|].
  destruct (f a) as [b|e] eqn:Hfa; simpl; [|discriminate].
  destruct (mapR f l) as [bs|e]; simpl; [|discriminate].
  intros [= <-]. destruct i as [|i]; simpl.
  - intros [= <-]. eauto.
  - intros Hx. exact (IH bs i eq_refl Hx).
Qed.


Lemma mapR_Forall2_map {A B C} (f : A → result B) (g : C → B) l (cs : list C) :
  Forall2 (fun x c => f x = Ok (g c)) l cs → mapR f l = Ok (map g cs).
Proof.
  induction 1 as [|x c l cs Hx _ IH]; simpl; [reflexivity|].
  rewrite Hx, IH. reflexivity.
Qed.

Lemma Forall2_map_self {B C} (P : C → B → Prop) (g : C → B) (cs : list C) :
  (∀ c, P c (g c)) → Forall2 P cs (map g cs).
Proof. intros HP. induction cs; simpl; constructor; auto. Qed.

Lemma mapR_then_map {A B C} (f : A → result B) (h : B → C) (l : list A) :
  mapR (fun x => y <~ f x ;; Ok (h y)) l = (ys <~ mapR f l ;; Ok (map h ys)).
Proof.
  induction l as [|x l IH]; simpl; [reflexivity|].
  destruct (f x) as [y|e]; simpl; [|reflexivity].
  rewrite IH. destruct (mapR f l); reflexivity.
Qed.

Lemma mapR_replicate {A B} (f : A → result B) (x : A) (y : B) (n : nat) :
  f x = Ok y → mapR f (replicate n x) = Ok (replicate n y).
Proof.
  intros Hf. induction n as [|n IH]; simpl; [reflexivity|].
  rewrite Hf, IH. reflexivity.
Qed.


(** A sub-list of the positions yields a sub-list of the values, and reads
    no cell that the longer list does not read. *)
Lemma valid_values_sublist raster no_value (ps1 ps2 : list (Z * Z)) vs2 :
  sublist ps1 ps2 →
  valid_values raster no_value ps2 = Ok vs2 →
  ∃ vs1, valid_values raster no_value ps1 = Ok vs1 ∧ sublist vs1 vs2.
Proof.
  intros Hsub; revert vs2.
  induction Hsub as [|pos ps1 ps2 Hsub IH|pos ps1 ps2 Hsub IH]; intros vs2; simpl.
  - intros _. exists []. split; [reflexivity|apply sublist_nil_l].
  - destruct (getitem raster pos) as [c|e]; simpl; [|discriminate].
    destruct (Qeq_bool c no_value); simpl.
    + intros H2. destruct (IH _ H2) as (vs1 & -> & Hs). eauto.
    + destruct (valid_values raster no_value ps2) as [vs|e]; simpl; [|discriminate].
      intros [= <-]. destruct (IH _ eq_refl) as (vs1 & -> & Hs).
      simpl. exists (c :: vs1). split; [reflexivity|by apply sublist_skip].
  - destruct (getitem raster pos) as [c|e]; simpl; [|discriminate].
    destruct (Qeq_bool c no_value); simpl.
    + intros H2. exact (IH _ H2).
    + destruct (valid_values raster no_value ps2) as [vs|e]; simpl; [|discriminate].
      intros [= <-]. destruct (IH _ eq_refl) as (vs1 & -> & Hs).
      exists vs1. split; [reflexivity|by apply sublist_cons].
Qed.

Lemma Qlt_bool_true (x y : Q) : (x < y)%Q → Qlt_bool x y = true.
Proof.
  intros H. unfold Qlt_bool. destruct (Qle_bool y x) eqn:E; [|reflexivity].
  apply Qle_bool_iff in E. exfalso. exact (Qlt_not_le _ _ H E).
Qed.

Lemma Qlt_bool_false (x y : Q) : (y <= x)%Q → Qlt_bool x y = false.
Proof.
  intros H. unfold Qlt_bool. apply Qle_bool_iff in H. rewrite H. reflexivity.
Qed.

(** A point in range reads its cell: [getitem] succeeds on every index
    that numpy accepts. *)
Lemma getitem_in_range raster row (r c : nat) v :
  raster !! r = Some row → row !! c = Some v →
  getitem raster (Z.of_nat r, Z.of_nat c) = Ok v.
Proof.
  intros Hr Hc. unfold getitem, np_axis; simpl.
  pose proof (lookup_lt_Some _ _ _ Hr). pose proof (lookup_lt_Some _ _ _ Hc).
  rewrite decide_True by lia. rewrite Nat2Z.id, Hr.
  rewrite decide_True by lia. rewrite Nat2Z.id, Hc. reflexivity.
Qed.

(** ** Loading a layer *)

Section Loading.

Variable find_data : string → option string.
Variable gdal_Open : string → dataset.
Variable read_header :
  string → gmap string (gmap string Q) → option exn * gmap string (gmap string Q).

Lemma call_read_header_loaded variable s :
  loaded_datasets (snd (call_read_header read_header variable s)) = loaded_datasets s.
Proof.
  unfold call_read_header.
  destruct (read_header variable (metadata s)) as [[e|] md]; reflexivity.
Qed.

Lemma call_read_header_trace variable s :
  trace (snd (call_read_header read_header variable s)) =
    (trace s ++ [EvReadHeader variable])%list.
Proof.
  unfold call_read_header.
  destruct (read_header variable (metadata s)) as [[e|] md]; reflexivity.
Qed.

Lemma call_read_header_metadata variable s :
  metadata (snd (call_read_header read_header variable s)) =
    snd (read_header variable (metadata s)).
Proof.
  unfold call_read_header.
  destruct (read_header variable (metadata s)) as [[e|] md]; reflexivity.
Qed.

Lemma get_dataset_cached file s d :
  loaded_datasets s !! bil_name file = Some d →
  get_dataset find_data gdal_Open read_header file s =
    header_then_return read_header (bil_name file) d s.
Proof.
  intros Hd. unfold get_dataset, header_then_return, bindM, ret, raise.
  rewrite Hd.
  destruct (metadata s !! bil_name file) as [h|] eqn:Hm.
  - rewrite Hd. reflexivity.
  - change (String.length ".bil") with 4%nat.
    pose proof (call_read_header_loaded (drop_last 4 (bil_name file)) s) as Hl.
    destruct (call_read_header read_header (drop_last 4 (bil_name file)) s)
      as [[[]|e] s1]; simpl in *; [|reflexivity].
    rewrite Hl, Hd. reflexivity.
Qed.

Lemma get_dataset_not_found file s :
  loaded_datasets s !! bil_name file = None →
  find_data (bil_name file) = None →
  get_dataset find_data gdal_Open read_header file s =
    (Raise (Exception (not_found_message (bil_name file))),
     with_trace s [EvFindData (bil_name file)]).
Proof.
  intros Hd Hf. unfold get_dataset, bindM, ret, raise, log.
  rewrite Hd, Hf. reflexivity.
Qed.

Lemma get_dataset_load file s path :
  loaded_datasets s !! bil_name file = None →
  find_data (bil_name file) = Some path →
  get_dataset find_data gdal_Open read_header file s =
    header_then_return read_header (bil_name file) (gdal_Open path)
      (with_dataset gdal_Open s (bil_name file) path).
Proof.
  intros Hd Hf.
  assert (Hc : loaded_datasets (with_dataset gdal_Open s (bil_name file) path)
                 !! bil_name file = Some (gdal_Open path))
    by (simpl; apply lookup_insert_eq).
  rewrite <- (get_dataset_cached file _ _ Hc).
  unfold get_dataset, bindM, ret, raise, log, store_dataset, with_dataset.
  rewrite Hd, Hf. simpl. rewrite lookup_insert_eq.
  rewrite <- app_assoc. reflexivity.
Qed.

(** What [extract_attributes] returns when it returns. *)
Lemma extract_attributes_inv file s data raster no_value ul dims size s' :
  extract_attributes find_data gdal_Open read_header file s =
    (Ok (data, raster, no_value, ul, dims, size), s') →
  get_dataset find_data gdal_Open read_header file s = (Ok data, s') ∧
  raster = ReadAsArray data ∧
  no_value = match md_lookup (metadata s') file "nodata" with
             | Ok v => v
             | Raise _ => (-9999)%Q
             end ∧
  md_lookup (metadata s') file "ulymap" = Ok (fst ul) ∧
  md_lookup (metadata s') file "ulxmap" = Ok (snd ul) ∧
  md_lookup (metadata s') file "ydim" = Ok (fst dims) ∧
  md_lookup (metadata s') file "xdim" = Ok (snd dims) ∧
  size = (RasterYSize data, RasterXSize data).
Proof.
  unfold extract_attributes, bindM, liftR, float.
  destruct (get_dataset find_data gdal_Open read_header file s) as [[d|e] s1];
    [|discriminate].
  destruct (md_lookup (metadata s1) file "ulymap") as [a|] eqn:Ha; simpl;
    [|discriminate].
  destruct (md_lookup (metadata s1) file "ulxmap") as [b|] eqn:Hb; simpl;
    [|discriminate].
  destruct (md_lookup (metadata s1) file "ydim") as [c|] eqn:Hc; simpl;
    [|discriminate].
  destruct (md_lookup (metadata s1) file "xdim") as [e|] eqn:He; simpl;
    [|discriminate].
  intros [= <- <- <- <- <- <- <-]. simpl. auto 10.
Qed.

(** Whatever it returns, [extract_attributes] leaves the state that
    [get_dataset] leaves. *)
Lemma extract_attributes_state file s :
  snd (extract_attributes find_data gdal_Open read_header file s) =
    snd (get_dataset find_data gdal_Open read_header file s).
Proof.
  unfold extract_attributes, bindM, liftR.
  destruct (get_dataset find_data gdal_Open read_header file s) as [[d|e] s1];
    reflexivity.
Qed.

Lemma extract_attributes_raise file s e s' :
  get_dataset find_data gdal_Open read_header file s = (Raise e, s') →
  extract_attributes find_data gdal_Open read_header file s = (Raise e, s').
Proof. intros Hg. unfold extract_attributes, bindM. rewrite Hg. reflexivity. Qed.

End Loading.

Ltac unfold_sampling :=
  unfold get_values, get_average, get_spatial_variance, bindM, liftR.

Ltac unfold_neighbourhood := unfold neighbourhood_values, raster_positions.
Ltac unfold_values := unfold neighbourhood_values.
Ltac unfold_average_at := unfold average_at.
Ltac unfold_variance_at := unfold variance_at.

Section Sampling.

Variable find_data : string → option string.
Variable gdal_Open : string → dataset.
Variable read_header :
  string → gmap string (gmap string Q) → option exn * gmap string (gmap string Q).
Variable points_within_distance : Q * Q → Q → Q * Q → Q * Q → list (Q * Q).

Abbreviation extract_attributes := (extract_attributes find_data gdal_Open read_header).
Abbreviation get_values := (get_values find_data gdal_Open read_header).
Abbreviation get_average :=
  (get_average find_data gdal_Open read_header points_within_distance).
Abbreviation get_spatial_variance :=
  (get_spatial_variance find_data gdal_Open read_header points_within_distance).
Abbreviation average_at := (average_at points_within_distance).
Abbreviation variance_at := (variance_at points_within_distance).
Abbreviation neighbourhood_values := (neighbourhood_values points_within_distance).
Abbreviation raster_positions := (raster_positions points_within_distance).

(** The three operations are their loop run after [extract_attributes]. *)
Lemma get_values_run file points s data raster no_value ul dims size s' :
  extract_attributes file s = (Ok (data, raster, no_value, ul, dims, size), s') →
  get_values file points s =
    (result0 <~ mapR (fun p => v <~ getitem raster (xy_coords p ul dims size) ;;
                               Ok (float v)) points ;;
     Ok (map (fun value => if Qeq_bool value no_value then None else Some value)
           result0), s').
Proof.
  intros He. unfold_sampling. rewrite He.
  f_equal. erewrite mapR_ext; [reflexivity|].
  intros [lat lon]; reflexivity.
Qed.

Lemma get_average_run file points radius s data raster no_value ul dims size s' :
  extract_attributes file s = (Ok (data, raster, no_value, ul, dims, size), s') →
  get_average file points radius s =
    (mapR (average_at raster no_value ul dims size radius) points, s').
Proof. intros He. unfold_sampling. rewrite He. reflexivity. Qed.

Lemma get_spatial_variance_run file points radius s data raster no_value ul dims size s' :
  extract_attributes file s = (Ok (data, raster, no_value, ul, dims, size), s') →
  get_spatial_variance file points radius s =
    (mapR (variance_at raster no_value ul dims size radius) points, s').
Proof.
  intros He. unfold_sampling. rewrite He. reflexivity.
Qed.

Lemma sampling_raise file points radius s e s' :
  extract_attributes file s = (Raise e, s') →
  get_values file points s = (Raise e, s') ∧
  get_average file points radius s = (Raise e, s') ∧
  get_spatial_variance file points radius s = (Raise e, s').
Proof.
  intros He.
  unfold_sampling. rewrite He. auto.
Qed.

Lemma neighbourhood_values_zero raster no_value ul dims size point :
  points_within_distance point 0%Q ul dims = [point] →
  neighbourhood_values raster no_value ul dims size 0%Q point =
    (v <~ getitem raster (xy_coords point ul dims size) ;;
     Ok (if Qeq_bool v no_value then [] else [v])).
Proof.
  intros Hz. unfold_neighbourhood. rewrite Hz.
  destruct point as [lat lon]; simpl.
  destruct (getitem raster (xy_coords (lat, lon) ul dims size)) as [v|e]; simpl;
    [|reflexivity].
  destruct (Qeq_bool v no_value); reflexivity.
Qed.

Lemma average_at_zero raster no_value ul dims size point :
  points_within_distance point 0%Q ul dims = [point] →
  average_at raster no_value ul dims size 0%Q point =
    (v <~ getitem raster (xy_coords point ul dims size) ;;
     Ok (if Qeq_bool (float v) no_value then None else Some (float v))).
Proof.
  intros Hz. unfold_average_at.
  rewrite (neighbourhood_values_zero _ _ _ _ _ _ Hz).
  destruct (getitem raster (xy_coords point ul dims size)) as [v|e]; simpl;
    [|reflexivity].
  unfold float at 2 3.
  destruct (Qeq_bool v no_value); simpl; [reflexivity|].
  rewrite mean_singleton. reflexivity.
Qed.

(** The same over any list of points. *)
Lemma zero_radius_average_is_lookup_list file points s :
  Forall (fun p => ∀ ul dims, points_within_distance p 0%Q ul dims = [p]) points →
  get_average file points 0%Q s = get_values file points s.
Proof.
  intros Hz.
  destruct (extract_attributes file s) as [[attrs|e] s'] eqn:He.
  - destruct attrs as [[[[[data raster] no_value] ul] dims] size].
    rewrite (get_average_run _ _ _ _ _ _ _ _ _ _ _ He).
    rewrite (get_values_run _ _ _ _ _ _ _ _ _ _ He).
    f_equal. induction Hz as [|p ps Hp _ IH]; simpl; [reflexivity|].
    rewrite (average_at_zero _ _ _ _ _ _ (Hp ul dims)).
    destruct (getitem raster (xy_coords p ul dims size)) as [v|e]; simpl;
      [|reflexivity].
    rewrite IH.
    destruct (mapR (fun p0 => v0 <~ getitem raster (xy_coords p0 ul dims size) ;;
                              Ok (float v0)) ps); reflexivity.
  - destruct (sampling_raise file points 0%Q s e s' He) as (-> & -> & _).
    reflexivity.
Qed.

(** C1. With radius 0, and an enumerator that then returns the centre
    point alone (section 4.2 of the spec), [get_average] over [[p]] is
    [get_values] over [[p]]: the same result or the same exception, and
    the same final state. *)
Theorem zero_radius_average_is_lookup file p s :
  (∀ ul dims, points_within_distance p 0%Q ul dims = [p]) →
  get_average file [p] 0%Q s = get_values file [p] s.
Proof.
  intros Hz. apply zero_radius_average_is_lookup_list.
  constructor; [exact Hz|constructor].
Qed.

(** C2. A point beyond 60 degrees of latitude gets the missing marker
    from [get_spatial_variance]: its turn of the loop returns [None]
    for every enumerator, raster, sentinel, geometry and radius; so does
    every position of the result that belongs to such a point; and a
    call on such points alone returns, with the marker everywhere. *)
Theorem polar_point_variance_is_missing point :
  (60 < Qabs (fst point))%Q →
  (∀ raster no_value ul dims size radius,
      variance_at raster no_value ul dims size radius point = Ok None) ∧
  (∀ file points radius s results s' i,
      get_spatial_variance file points radius s = (Ok results, s') →
      points !! i = Some point → results !! i = Some None) ∧
  (∀ file n radius s attrs s',
      extract_attributes file s = (Ok attrs, s') →
      get_spatial_variance file (replicate n point) radius s =
        (Ok (replicate n None), s')).
Proof.
  intros Hpolar.
  assert (Hat : ∀ raster no_value ul dims size radius,
             variance_at raster no_value ul dims size radius point = Ok None).
  { intros. unfold_variance_at. rewrite (Qlt_bool_true _ _ Hpolar). reflexivity. }
  split; [exact Hat|]. split.
  - intros file points radius s results s' i Hrun Hi.
    destruct (extract_attributes file s) as [[attrs|e] s1] eqn:He.
    + destruct attrs as [[[[[data raster] no_value] ul] dims] size].
      rewrite (get_spatial_variance_run _ _ _ _ _ _ _ _ _ _ _ He) in Hrun.
      injection Hrun as Hrun _.
      destruct (mapR_lookup _ _ _ _ _ Hrun Hi) as (y & Hy & Hres).
      rewrite Hat in Hy. injection Hy as <-. exact Hres.
    + destruct (sampling_raise file points radius s e s1 He) as (_ & _ & Hv).
      rewrite Hv in Hrun. discriminate.
  - intros file n radius s attrs s' He.
    destruct attrs as [[[[[data raster] no_value] ul] dims] size].
    rewrite (get_spatial_variance_run _ _ _ _ _ _ _ _ _ _ _ He).
    rewrite (mapR_replicate _ _ None); [reflexivity|apply Hat].
Qed.

(** C3. [get_values] over points whose cells hold [cells]: the call
    returns one result for each point, in order; a result is the missing
    marker exactly when the cell equals the no-data sentinel, and is the
    cell as a float otherwise; the sentinel is the [nodata] entry of the
    layer's header, and -9999 when there is none. *)
Theorem lookup_is_missing_iff_sentinel
    file points s data raster no_value ul dims size s' cells :
  extract_attributes file s = (Ok (data, raster, no_value, ul, dims, size), s') →
  Forall2 (fun p v => getitem raster (xy_coords p ul dims size) = Ok v) points cells →
  (∃ results,
      get_values file points s = (Ok results, s') ∧
      Forall2 (fun v r => (r = None ↔ (v == no_value)%Q) ∧
                          (¬ (v == no_value)%Q → r = Some (float v)))
        cells results) ∧
  (∀ n, metadata s' !! file ≫= (.!! "nodata") = Some n → no_value = n) ∧
  (metadata s' !! file ≫= (.!! "nodata") = None → no_value = (-9999)%Q).
Proof using Type.
  clear points_within_distance.
  intros He Hv. split.
  - rewrite (get_values_run _ _ _ _ _ _ _ _ _ _ He).
    rewrite (mapR_Forall2_map _ (fun v => v) points cells), map_id; simpl.
    + eexists; split; [reflexivity|].
      apply Forall2_map_self. intros v. unfold float.
      destruct (Qeq_bool v no_value) eqn:E.
      * apply Qeq_bool_iff in E. split; [split; auto|]. intros Hn. contradiction.
      * split; [|reflexivity]. split; [discriminate|].
        intros Hq. apply Qeq_bool_iff in Hq. congruence.
    + eapply Forall2_impl; [exact Hv|]. simpl. intros p v ->. reflexivity.
  - destruct (extract_attributes_inv _ _ _ _ _ _ _ _ _ _ _ _ He)
      as (_ & _ & -> & _).
    unfold md_lookup.
    destruct (metadata s' !! file) as [h|]; simpl.
    + destruct (h !! "nodata") as [n|]; simpl; split; congruence.
    + split; congruence.
Qed.

Lemma neighbourhood_values_cells raster no_value ul dims size radius point cells :
  mapR (getitem raster) (raster_positions ul dims size radius point) = Ok cells →
  neighbourhood_values raster no_value ul dims size radius point =
    Ok (observed no_value cells).
Proof. intros Hc. unfold_values. by apply valid_values_observed. Qed.

Lemma average_at_cells raster no_value ul dims size radius point cells :
  mapR (getitem raster) (raster_positions ul dims size radius point) = Ok cells →
  average_at raster no_value ul dims size radius point =
    Ok (average_of_cells no_value cells).
Proof.
  intros Hc. unfold_average_at. unfold average_of_cells.
  rewrite (neighbourhood_values_cells _ no_value _ _ _ _ _ _ Hc). simpl.
  destruct (observed no_value cells); reflexivity.
Qed.

Lemma variance_at_cells raster no_value ul dims size radius point cells :
  (Qabs (fst point) <= 60)%Q →
  mapR (getitem raster) (raster_positions ul dims size radius point) = Ok cells →
  variance_at raster no_value ul dims size radius point =
    Ok (variance_of_cells no_value cells).
Proof.
  intros Hlat Hc. unfold_variance_at. unfold variance_of_cells.
  rewrite (Qlt_bool_false _ _ Hlat).
  rewrite (neighbourhood_values_cells _ no_value _ _ _ _ _ _ Hc). simpl.
  destruct (observed no_value cells); reflexivity.
Qed.

(** With an exact addition, [get_average] over points whose neighbourhood
    cells hold [neighbourhoods] returns one result for each point, in
    order.  For each, the cells equal to the sentinel are left out; the
    result is the missing marker when nothing is left, and otherwise the
    arithmetic mean (sum divided by count) of what is left. *)
Lemma average_is_mean_of_observed
    file points radius s data raster no_value ul dims size s' neighbourhoods :
  extract_attributes file s = (Ok (data, raster, no_value, ul, dims, size), s') →
  Forall2 (fun point cells =>
             mapR (getitem raster) (raster_positions ul dims size radius point)
               = Ok cells) points neighbourhoods →
  ∃ results, get_average file points radius s = (Ok results, s') ∧
             Forall2 (mean_of_observed no_value) neighbourhoods results.
Proof.
  intros He Hc.
  rewrite (get_average_run _ _ _ _ _ _ _ _ _ _ _ He).
  rewrite (mapR_Forall2_map _ (average_of_cells no_value) points neighbourhoods).
  - eexists; split; [reflexivity|].
    apply Forall2_map_self. intros cells.
    unfold mean_of_observed, average_of_cells.
    destruct (observed no_value cells) as [|c cs] eqn:Hobs.
    + split; [reflexivity|congruence].
    + split; [discriminate|]. intros _. eexists; split; [reflexivity|].
      apply np_mean_arithmetic_mean.
  - eapply Forall2_impl; [exact Hc|]. simpl. intros point cells Hcells.
    by apply average_at_cells.
Qed.

Lemma variance_at_zero raster no_value ul dims size point v :
  (Qabs (fst point) <= 60)%Q →
  points_within_distance point 0%Q ul dims = [point] →
  getitem raster (xy_coords point ul dims size) = Ok v →
  variance_at raster no_value ul dims size 0%Q point =
    Ok (if Qeq_bool v no_value then None else Some (float (np_var [v]))).
Proof.
  intros Hlat Hz Hv. unfold_variance_at. rewrite (Qlt_bool_false _ _ Hlat).
  rewrite (neighbourhood_values_zero _ _ _ _ _ _ Hz), Hv. simpl.
  destruct (Qeq_bool v no_value); reflexivity.
Qed.

(** C5. [get_spatial_variance] over points of latitude at most 60 in
    absolute value whose neighbourhood cells hold [neighbourhoods]: for
    each point the missing marker when no cell holds an observation, and
    otherwise the population variance (the mean of the squared deviations
    from the mean) of the observed values.  With radius 0, and an
    enumerator that then returns the centre alone, the result for a point
    is the missing marker when its cell holds the sentinel and 0 when it
    does not. *)
Theorem variance_is_population_variance
    file s data raster no_value ul dims size s' :
  extract_attributes file s = (Ok (data, raster, no_value, ul, dims, size), s') →
  (∀ points radius neighbourhoods,
      Forall (fun point => (Qabs (fst point) <= 60)%Q) points →
      Forall2 (fun point cells =>
                 mapR (getitem raster) (raster_positions ul dims size radius point)
                   = Ok cells) points neighbourhoods →
      ∃ results, get_spatial_variance file points radius s = (Ok results, s') ∧
                 Forall2 (variance_of_observed no_value) neighbourhoods results) ∧
  (∀ point v,
      (Qabs (fst point) <= 60)%Q →
      points_within_distance point 0%Q ul dims = [point] →
      getitem raster (xy_coords point ul dims size) = Ok v →
      ∃ r, get_spatial_variance file [point] 0%Q s = (Ok [r], s') ∧
           ((v == no_value)%Q → r = None) ∧
           (¬ (v == no_value)%Q → ∃ q, r = Some q ∧ (q == 0)%Q)).
Proof.
  intros He. split.
  - intros points radius neighbourhoods Hlat Hc.
    rewrite (get_spatial_variance_run _ _ _ _ _ _ _ _ _ _ _ He).
    rewrite (mapR_Forall2_map _ (variance_of_cells no_value) points neighbourhoods).
    + eexists; split; [reflexivity|].
      apply Forall2_map_self. intros cells.
      unfold variance_of_observed, variance_of_cells.
      destruct (observed no_value cells) as [|c cs] eqn:Hobs.
      * split; [reflexivity|congruence].
      * split; [discriminate|]. intros _. eexists; split; [reflexivity|].
        apply np_var_population_variance.
    + clear He. induction Hc as [|point cells ps cs Hcells _ IH];
        constructor.
      * apply Forall_cons in Hlat as [Hp _]. by apply variance_at_cells.
      * apply IH. by apply Forall_cons in Hlat as [_ ?].
  - intros point v Hlat Hz Hv.
    rewrite (get_spatial_variance_run _ _ _ _ _ _ _ _ _ _ _ He), mapR_singleton.
    rewrite (variance_at_zero _ no_value _ _ _ _ _ Hlat Hz Hv). simpl.
    eexists; split; [reflexivity|].
    destruct (Qeq_bool v no_value) eqn:E.
    + split; [reflexivity|]. apply Qeq_bool_iff in E. intros Hn; contradiction.
    + split.
      * intros Hq. apply Qeq_bool_iff in Hq. congruence.
      * intros _. eexists; split; [reflexivity|]. apply np_var_singleton.
Qed.

(** When the cells enumerated at radius [r1] are a sub-list of those
    enumerated at radius [r2], and the call at [r2] reads its cells, the
    call at [r1] reads its cells too and collects a sub-list of the valid
    values collected at [r2]: no more of them. *)
Lemma valid_count_grows_with_neighbourhood
    raster no_value ul dims size r1 r2 point values2 :
  raster_positions ul dims size r1 point `sublist_of`
    raster_positions ul dims size r2 point →
  neighbourhood_values raster no_value ul dims size r2 point = Ok values2 →
  ∃ values1,
    neighbourhood_values raster no_value ul dims size r1 point = Ok values1 ∧
    values1 `sublist_of` values2 ∧
    (length values1 ≤ length values2)%nat.
Proof.
  intros Hsub. unfold_values. intros H2.
  destruct (valid_values_sublist _ _ _ _ _ Hsub H2) as (values1 & H1 & Hs).
  exists values1. split; [exact H1|]. split; [exact Hs|].
  by apply sublist_length.
Qed.




End Sampling.

(** ** The coordinate mapping *)

Lemma Qfloor_scaled (a d : Q) :
  (0 < d)%Q →
  (inject_Z (Qfloor (a / d)) * d <= a)%Q ∧ (a < (inject_Z (Qfloor (a / d)) + 1) * d)%Q.
Proof.
  intros Hd.
  assert (Hne : ¬ (d == 0)%Q) by (intros E; rewrite E in Hd; discriminate).
  assert (Ha : (a == a / d * d)%Q) by (field; exact Hne).
  split.
  - rewrite Ha at 2. apply Qmult_le_compat_r; [apply Qfloor_le|by apply Qlt_le_weak].
  - rewrite Ha at 1. apply Qmult_lt_compat_r; [exact Hd|].
    pose proof (Qlt_floor (a / d)) as Hlt.
    rewrite inject_Z_plus in Hlt. exact Hlt.
Qed.

(** C7. [xy_coords] returns the floor of the latitude offset from the
    origin over the latitude step, and of the longitude offset over the
    longitude step.  The raster size plays no part in the result: it is
    neither clamped nor rejected.  For positive steps the point lies in the
    half-open band of its row and of its column. *)
Theorem xy_coords_is_floor_of_offset point ul dims size :
  xy_coords point ul dims size =
    (Qfloor ((fst ul - fst point) / fst dims),
     Qfloor ((snd point - snd ul) / snd dims)) ∧
  (∀ size', xy_coords point ul dims size' = xy_coords point ul dims size) ∧
  ((0 < fst dims)%Q →
   let row := inject_Z (fst (xy_coords point ul dims size)) in
   (row * fst dims <= fst ul - fst point)%Q ∧
   (fst ul - fst point < (row + 1) * fst dims)%Q) ∧
  ((0 < snd dims)%Q →
   let col := inject_Z (snd (xy_coords point ul dims size)) in
   (col * snd dims <= snd point - snd ul)%Q ∧
   (snd point - snd ul < (col + 1) * snd dims)%Q).
Proof.
  split; [reflexivity|]. split; [reflexivity|].
  split; intros Hd; exact (Qfloor_scaled _ _ Hd).
Qed.

(** ** The layer cache over the life of the process *)

Lemma opened_app (tr1 tr2 : list event) :
  opened (tr1 ++ tr2) = (opened tr1 ++ opened tr2)%list.
Proof. apply omap_app. Qed.

Ltac unfold_header_then_return := unfold header_then_return.
Ltac unfold_cache := unfold cache_resolved, cache_logged.

Section Process.

Variable find_data : string → option string.
Variable gdal_Open : string → dataset.
Variable read_header :
  string → gmap string (gmap string Q) → option exn * gmap string (gmap string Q).
Variable points_within_distance : Q * Q → Q → Q * Q → Q * Q → list (Q * Q).

Abbreviation get_dataset := (get_dataset find_data gdal_Open read_header).
Abbreviation extract_attributes :=
  (extract_attributes find_data gdal_Open read_header).
Abbreviation get_values := (get_values find_data gdal_Open read_header).
Abbreviation get_average :=
  (get_average find_data gdal_Open read_header points_within_distance).
Abbreviation get_spatial_variance :=
  (get_spatial_variance find_data gdal_Open read_header points_within_distance).
Abbreviation run := (run find_data gdal_Open read_header points_within_distance).
Abbreviation reachable :=
  (reachable find_data gdal_Open read_header points_within_distance).
Abbreviation header_then_return := (header_then_return read_header).
Abbreviation cache_resolved := (cache_resolved find_data gdal_Open).

(** Every call leaves the state that its [get_dataset] leaves. *)
Lemma sampling_state file points radius s :
  snd (get_values file points s) = snd (get_dataset file s) ∧
  snd (get_average file points radius s) = snd (get_dataset file s) ∧
  snd (get_spatial_variance file points radius s) = snd (get_dataset file s).
Proof.
  rewrite <- (extract_attributes_state find_data gdal_Open read_header file s).
  destruct (extract_attributes file s) as [[attrs|e] s'] eqn:He.
  - destruct attrs as [[[[[data raster] no_value] ul] dims] size].
    rewrite (get_values_run _ _ _ _ _ _ _ _ _ _ _ _ _ He).
    rewrite (get_average_run _ _ _ _ _ _ _ _ _ _ _ _ _ _ _ He).
    rewrite (get_spatial_variance_run _ _ _ _ _ _ _ _ _ _ _ _ _ _ _ He).
    auto.
  - destruct (sampling_raise find_data gdal_Open read_header points_within_distance
                file points radius s e s' He) as (-> & -> & ->).
    auto.
Qed.

Lemma run_get_dataset c s : run c s = snd (get_dataset (call_file c) s).
Proof.
  destruct c as [file|file|file points|file points radius|file points radius];
    simpl.
  - reflexivity.
  - apply extract_attributes_state.
  - apply (sampling_state file points 0%Q s).
  - apply (sampling_state file points radius s).
  - apply (sampling_state file points radius s).
Qed.

Lemma header_then_return_state file d s :
  loaded_datasets (snd (header_then_return file d s)) = loaded_datasets s ∧
  opened (trace (snd (header_then_return file d s))) = opened (trace s) ∧
  (metadata (snd (header_then_return file d s)) = metadata s ∨
   ∃ variable, metadata (snd (header_then_return file d s)) =
                 snd (read_header variable (metadata s))) ∧
  (is_Some (metadata s !! file) → header_then_return file d s = (Ok d, s)) ∧
  ∀ d', fst (header_then_return file d s) = Ok d' → d' = d.
Proof.
  unfold_header_then_return.
  destruct (metadata s !! file) as [h|] eqn:Hm.
  - simpl. split; [reflexivity|]. split; [reflexivity|]. split; [by left|].
    split; [reflexivity|]. by intros d' [= <-].
  - pose proof (call_read_header_loaded read_header (drop_last 4 file) s) as Hl.
    pose proof (call_read_header_trace read_header (drop_last 4 file) s) as Ht.
    pose proof (call_read_header_metadata read_header (drop_last 4 file) s) as Hmd.
    destruct (call_read_header read_header (drop_last 4 file) s) as [[[]|e] s1];
      simpl in *.
    + split; [exact Hl|]. split; [by rewrite Ht, opened_app, app_nil_r|].
      split; [right; eauto|]. split; [by intros [? ?]|]. by intros d' [= <-].
    + split; [exact Hl|]. split; [by rewrite Ht, opened_app, app_nil_r|].
      split; [right; eauto|]. split; [by intros [? ?]|]. by intros d' ?.
Qed.

(** The three ways through the first statement of [get_dataset]. *)
Lemma get_dataset_cases file s :
  (∃ d, loaded_datasets s !! bil_name file = Some d ∧
        get_dataset file s = header_then_return (bil_name file) d s) ∨
  (loaded_datasets s !! bil_name file = None ∧
   find_data (bil_name file) = None ∧
   get_dataset file s =
     (Raise (Exception (not_found_message (bil_name file))),
      with_trace s [EvFindData (bil_name file)])) ∨
  (∃ path, loaded_datasets s !! bil_name file = None ∧
           find_data (bil_name file) = Some path ∧
           get_dataset file s =
             header_then_return (bil_name file) (gdal_Open path)
               (with_dataset gdal_Open s (bil_name file) path)).
Proof.
  destruct (loaded_datasets s !! bil_name file) as [d|] eqn:Hd.
  - left. exists d. split; [reflexivity|]. by apply get_dataset_cached.
  - right. destruct (find_data (bil_name file)) as [path|] eqn:Hf.
    + right. exists path. split; [reflexivity|]. split; [reflexivity|].
      by apply get_dataset_load.
    + left. split; [reflexivity|]. split; [reflexivity|].
      by apply get_dataset_not_found.
Qed.

Lemma get_dataset_preserves file s :
  cache_resolved s → cache_logged s →
  cache_resolved (snd (get_dataset file s)) ∧
  cache_logged (snd (get_dataset file s)).
Proof.
  intros Hres [Hnd Hlog].
  destruct (get_dataset_cases file s)
    as [(d & Hd & ->)|[(Hd & Hf & ->)|(path & Hd & Hf & ->)]].
  - destruct (header_then_return_state (bil_name file) d s) as (Hl & Ht & _).
    unfold_cache. rewrite Hl, Ht. auto.
  - simpl. split; [exact Hres|]. unfold cache_logged; simpl.
    rewrite opened_app, app_nil_r. auto.
  - destruct (header_then_return_state (bil_name file) (gdal_Open path)
                (with_dataset gdal_Open s (bil_name file) path)) as (Hl & Ht & _).
    unfold_cache. rewrite Hl, Ht. simpl.
    rewrite opened_app. simpl. split; [|split].
    + intros k d. rewrite lookup_insert. case_decide as Hk.
      * intros [= <-]. subst k. eauto.
      * apply Hres.
    + apply NoDup_app. split; [exact Hnd|]. split; [|apply NoDup_singleton].
      intros k Hk Hk'. apply list_elem_of_singleton in Hk'. subst k.
      apply Hlog in Hk. rewrite Hd in Hk. by destruct Hk.
    + intros k. rewrite elem_of_app, list_elem_of_singleton, Hlog.
      rewrite lookup_insert. case_decide as Hk.
      * subst k. split; [eauto|]. intros _. by right.
      * split; [intros [?|?]; [assumption|congruence]|]. intros ?. by left.
Qed.

Lemma reachable_cache s : reachable s → cache_resolved s ∧ cache_logged s.
Proof.
  induction 1 as [md|c s Hs [Hres Hlog]].
  - unfold_cache. simpl. split; [|split].
    + intros k d Hk. by rewrite lookup_empty in Hk.
    + apply NoDup_nil_2.
    + intros k. rewrite lookup_empty. split; [by intros ?%elem_of_nil|].
      by intros [? ?].
  - rewrite run_get_dataset. by apply get_dataset_preserves.
Qed.

(** C8. In a process that started with an empty cache, a layer name
    that [find_data] does not resolve makes each of the three sampling
    operations raise the exception whose message names the file and the
    two places searched.  The state that the call leaves differs from
    the one it found by a single call of [find_data] in the trace:
    nothing was opened or cached, and nothing was tried twice. *)
Theorem unknown_layer_raises file points radius s :
  reachable s →
  find_data (bil_name file) = None →
  get_values file points s =
    (Raise (Exception (not_found_message (bil_name file))),
     with_trace s [EvFindData (bil_name file)]) ∧
  get_average file points radius s =
    (Raise (Exception (not_found_message (bil_name file))),
     with_trace s [EvFindData (bil_name file)]) ∧
  get_spatial_variance file points radius s =
    (Raise (Exception (not_found_message (bil_name file))),
     with_trace s [EvFindData (bil_name file)]).
Proof.
  intros Hs Hf. apply sampling_raise, extract_attributes_raise.
  apply get_dataset_not_found; [|exact Hf].
  destruct (reachable_cache s Hs) as [Hres _].
  destruct (loaded_datasets s !! bil_name file) as [d|] eqn:Hd; [|reflexivity].
  destruct (Hres _ _ Hd) as (path & Hp & _). congruence.
Qed.

(** In a process that started with an empty cache: no key was ever
    given to [gdal.Open] twice, and the keys opened are the keys cached;
    whatever call comes next, every cached entry is still there with the
    same dataset; a call on a cached name opens nothing, leaves the cache
    as it is, and its [get_dataset] can only return the cached dataset;
    and the module writes nothing into [metadata], which changes only by
    what [read_header] does to it. *)
Lemma layer_cache_is_write_once s :
  reachable s →
  NoDup (opened (trace s)) ∧
  (∀ k, k ∈ opened (trace s) ↔ is_Some (loaded_datasets s !! k)) ∧
  (∀ c, loaded_datasets s ⊆ loaded_datasets (run c s)) ∧
  (∀ c d, loaded_datasets s !! bil_name (call_file c) = Some d →
          loaded_datasets (run c s) = loaded_datasets s ∧
          opened (trace (run c s)) = opened (trace s) ∧
          ∀ d', fst (get_dataset (call_file c) s) = Ok d' → d' = d) ∧
  (∀ c, metadata (run c s) = metadata s ∨
        ∃ variable, metadata (run c s) = snd (read_header variable (metadata s))).
Proof.
  intros Hs. destruct (reachable_cache s Hs) as [Hres [Hnd Hlog]].
  split; [exact Hnd|]. split; [exact Hlog|]. split; [|split].
  - intros c. rewrite run_get_dataset.
    destruct (get_dataset_cases (call_file c) s)
      as [(d & Hd & ->)|[(Hd & Hf & ->)|(path & Hd & Hf & ->)]].
    + destruct (header_then_return_state (bil_name (call_file c)) d s) as (-> & _).
      reflexivity.
    + reflexivity.
    + destruct (header_then_return_state (bil_name (call_file c)) (gdal_Open path)
                  (with_dataset gdal_Open s (bil_name (call_file c)) path))
        as (-> & _).
      simpl. by apply insert_subseteq.
  - intros c d Hd. rewrite run_get_dataset.
    rewrite (get_dataset_cached find_data gdal_Open read_header _ _ _ Hd).
    destruct (header_then_return_state (bil_name (call_file c)) d s)
      as (Hl & Ht & _ & _ & Hret).
    auto.
  - intros c. rewrite run_get_dataset.
    destruct (get_dataset_cases (call_file c) s)
      as [(d & Hd & ->)|[(Hd & Hf & ->)|(path & Hd & Hf & ->)]].
    + by destruct (header_then_return_state (bil_name (call_file c)) d s)
        as (_ & _ & Hmd & _).
    + by left.
    + by destruct (header_then_return_state (bil_name (call_file c)) (gdal_Open path)
                     (with_dataset gdal_Open s (bil_name (call_file c)) path))
        as (_ & _ & Hmd & _).
Qed.

End Process.

(** ** The enumerator of the spec and the layers on the equator *)

(** The enumerator modelled from the spec returns the centre alone at
    radius 0, whatever the distance function and the bounding box. *)
Lemma grid_points_within_distance_zero is_within half_extent centre ul dims :
  grid_points_within_distance is_within half_extent centre 0%Q ul dims = [centre].
Proof. reflexivity. Qed.

Example hills_positions_120 :
  raster_positions Fixture.points_within_distance
    (5 # 2, - 5 # 2)%Q (1, 1)%Q (5, 5)%Z 120%Q (0, 0)%Q
  = [(1, 2); (2, 1); (2, 2); (2, 3); (3, 2)]%Z.
Proof. vm_compute. reflexivity. Qed.

Example hills_positions_200 :
  raster_positions Fixture.points_within_distance
    (5 # 2, - 5 # 2)%Q (1, 1)%Q (5, 5)%Z 200%Q (0, 0)%Q
  = [(1, 1); (1, 2); (1, 3); (2, 1); (2, 2); (2, 3); (3, 1); (3, 2); (3, 3)]%Z.
Proof. vm_compute. reflexivity. Qed.

Example hills_lookup :
  fst (Fixture.values "hills" [(0, 0); (1, 0); (0, 1); (2, 2); (-2, -2)]%Q Fixture.start)
  = Ok [Some 0; Some 10; Some 0; Some 7; Some 7]%Q.
Proof. vm_compute. reflexivity. Qed.

Example lake_lookup :
  fst (Fixture.values "lake" [(0, 0); (1, 0)]%Q Fixture.start) = Ok [None; Some 10%Q].
Proof. vm_compute. reflexivity. Qed.

Example hills_out_of_range :
  fst (Fixture.values "hills" [(0, 10)]%Q Fixture.start) = Raise IndexError.
Proof. vm_compute. reflexivity. Qed.

(** A point just north of the raster has row -1, which numpy reads as the
    last row. *)
Example hills_negative_row :
  xy_coords (3, 0)%Q (5 # 2, - 5 # 2)%Q (1, 1)%Q (5, 5)%Z = (-1, 2)%Z ∧
  fst (Fixture.values "hills" [(3, 0)]%Q Fixture.start) = Ok [Some 7%Q].
Proof. split; vm_compute; reflexivity. Qed.

Lemma zero_radius_average_is_lookup_witness :
  Fixture.average "lake" [(0, 0)%Q] 0%Q Fixture.start =
  Fixture.values "lake" [(0, 0)%Q] Fixture.start.
Proof.
  apply (zero_radius_average_is_lookup Fixture.find_data Fixture.gdal_Open
           Fixture.read_header Fixture.points_within_distance "lake" (0, 0)%Q
           Fixture.start).
  intros ul dims. reflexivity.
Defined.

Lemma polar_point_variance_is_missing_witness :
  (60 < Qabs (fst (61, 10)%Q))%Q ∧
  Fixture.variance "hills" (replicate 2 (61, 10)%Q) 40%Q Fixture.start =
    (Ok (replicate 2 None),
     snd (extract_attributes Fixture.find_data Fixture.gdal_Open Fixture.read_header
            "hills" Fixture.start)).
Proof.
  assert (H : (60 < Qabs (fst (61, 10)%Q))%Q) by reflexivity.
  split; [exact H|].
  destruct (polar_point_variance_is_missing Fixture.find_data Fixture.gdal_Open
              Fixture.read_header Fixture.points_within_distance (61, 10)%Q H)
    as (_ & _ & Hall).
  eapply Hall. vm_compute. reflexivity.
Defined.

Lemma lake_attributes :
  extract_attributes Fixture.find_data Fixture.gdal_Open Fixture.read_header
    "lake" Fixture.start =
  (Ok (Fixture.gdal_Open "data/lake.bil", Fixture.lake, (-9999)%Q,
       (5 # 2, - 5 # 2)%Q, (1, 1)%Q, (5, 5)%Z), Fixture.lake_loaded).
Proof. vm_compute. reflexivity. Defined.

Lemma hills_attributes :
  extract_attributes Fixture.find_data Fixture.gdal_Open Fixture.read_header
    "hills" Fixture.start =
  (Ok (Fixture.gdal_Open "data/hills.bil", Fixture.hills, (-9999)%Q,
       (5 # 2, - 5 # 2)%Q, (1, 1)%Q, (5, 5)%Z), Fixture.hills_loaded).
Proof. vm_compute. reflexivity. Defined.

Lemma lookup_is_missing_iff_sentinel_witness :
  (∃ results,
      Fixture.values "lake" [(0, 0); (1, 0)]%Q Fixture.start =
        (Ok results, Fixture.lake_loaded) ∧
      Forall2 (fun v r => (r = None ↔ (v == -9999)%Q) ∧
                          (¬ (v == -9999)%Q → r = Some (float v)))
        [-9999; 10]%Q results) ∧
  (∀ n, metadata Fixture.lake_loaded !! "lake" ≫= (.!! "nodata") = Some n →
        (-9999)%Q = n) ∧
  (metadata Fixture.lake_loaded !! "lake" ≫= (.!! "nodata") = None →
   (-9999)%Q = (-9999)%Q).
Proof.
  apply (lookup_is_missing_iff_sentinel Fixture.find_data Fixture.gdal_Open
           Fixture.read_header "lake" [(0, 0); (1, 0)]%Q Fixture.start
           (Fixture.gdal_Open "data/lake.bil") Fixture.lake (-9999)%Q
           (5 # 2, - 5 # 2)%Q (1, 1)%Q (5, 5)%Z Fixture.lake_loaded [-9999; 10]%Q).
  - exact lake_attributes.
  - repeat constructor.
Defined.

Lemma variance_is_population_variance_witness :
  ∃ results,
    Fixture.variance "hills" [(0, 0)%Q] 120%Q Fixture.start =
      (Ok results, Fixture.hills_loaded) ∧
    Forall2 (variance_of_observed (-9999)) [[10; 0; 0; 0; 10]%Q] results.
Proof.
  destruct (variance_is_population_variance Fixture.find_data Fixture.gdal_Open
              Fixture.read_header Fixture.points_within_distance "hills"
              Fixture.start (Fixture.gdal_Open "data/hills.bil") Fixture.hills
              (-9999)%Q (5 # 2, - 5 # 2)%Q (1, 1)%Q (5, 5)%Z Fixture.hills_loaded
              hills_attributes) as [Hany _].
  apply Hany.
  - repeat constructor. vm_compute. discriminate.
  - repeat constructor.
Defined.

(** Around the point (0, 0) of [hills] the variance is 24 within 120 km
    (five cells) and 40/3 within 200 km (nine cells). *)
Example variance_shrinks_from_120_to_200_km :
  (Qabs (fst (0, 0)%Q) <= 60)%Q ∧ (120 <= 200)%Q ∧
  ∃ v1 v2,
    fst (Fixture.variance "hills" [(0, 0)%Q] 120%Q Fixture.start) = Ok [Some v1] ∧
    fst (Fixture.variance "hills" [(0, 0)%Q] 200%Q Fixture.start) = Ok [Some v2] ∧
    (v1 == 24)%Q ∧ (v2 == 40 # 3)%Q ∧ (v2 < v1)%Q.
Proof.
  split; [vm_compute; discriminate|]. split; [vm_compute; discriminate|].
  eexists _, _. split; [vm_compute; reflexivity|]. split; [vm_compute; reflexivity|].
  split; [reflexivity|]. split; reflexivity.
Qed.

Lemma xy_coords_is_floor_of_offset_witness :
  xy_coords (10, 10)%Q (90, -180)%Q (1 # 2, 1 # 2)%Q (360, 720)%Z = (160, 380)%Z ∧
  (inject_Z 160 * (1 # 2) <= 90 - 10)%Q ∧ (90 - 10 < (inject_Z 160 + 1) * (1 # 2))%Q.
Proof.
  destruct (xy_coords_is_floor_of_offset (10, 10)%Q (90, -180)%Q (1 # 2, 1 # 2)%Q
              (360, 720)%Z) as (Hxy & _ & Hrow & _).
  split; [exact Hxy|].
  apply Hrow. reflexivity.
Defined.

Lemma unknown_layer_raises_witness :
  Fixture.values "bio1" [(10, 10)%Q] Fixture.hills_loaded =
    (Raise (Exception "Couldn't find bio1.bil in working directory or package data."),
     with_trace Fixture.hills_loaded [EvFindData "bio1.bil"]) ∧
  Fixture.average "bio1" [(10, 10)%Q] 40%Q Fixture.hills_loaded =
    (Raise (Exception "Couldn't find bio1.bil in working directory or package data."),
     with_trace Fixture.hills_loaded [EvFindData "bio1.bil"]) ∧
  Fixture.variance "bio1" [(10, 10)%Q] 40%Q Fixture.hills_loaded =
    (Raise (Exception "Couldn't find bio1.bil in working directory or package data."),
     with_trace Fixture.hills_loaded [EvFindData "bio1.bil"]).
Proof.
  apply (unknown_layer_raises Fixture.find_data Fixture.gdal_Open Fixture.read_header
           Fixture.points_within_distance "bio1" [(10, 10)%Q] 40%Q Fixture.hills_loaded).
  - apply (reachable_call _ _ _ _ (CallExtractAttributes "hills") Fixture.start).
    apply reachable_start.
  - reflexivity.
Defined.


(** The mean at the point (0, 0) of [lake] within 120 km is 5: the four
    neighbours 10, 0, 0, 10 without the cell of the point itself. *)
Example lake_average_120 :
  ∃ m, fst (Fixture.average "lake" [(0, 0)%Q] 120%Q Fixture.start) = Ok [Some m] ∧
       (m == 5)%Q.
Proof. eexists. split; [vm_compute; reflexivity|reflexivity]. Qed.

(** * Further properties of [get_data.py] *)

(** ** Layer names *)

Lemma length_append (s t : string) :
  String.length (s +:+ t) = (String.length s + String.length t)%nat.
Proof. induction s as [|a s IH]; simpl; [reflexivity|]. by rewrite IH. Qed.

Lemma substring_all (t : string) : String.substring 0 (String.length t) t = t.
Proof. induction t as [|a t IH]; simpl; [reflexivity|]. by rewrite IH. Qed.

Lemma substring_append_right (s t : string) :
  String.substring (String.length s) (String.length t) (s +:+ t) = t.
Proof. induction s as [|a s IH]; simpl; [apply substring_all|exact IH]. Qed.

Lemma substring_append_left (s t : string) :
  String.substring 0 (String.length s) (s +:+ t) = s.
Proof.
  induction s as [|a s IH]; simpl; [by destruct t|]. by rewrite IH.
Qed.

Lemma endswith_append (s t : string) : endswith (s +:+ t) t = true.
Proof.
  unfold endswith. rewrite length_append.
  replace (String.length s + String.length t - String.length t)%nat
    with (String.length s) by lia.
  rewrite substring_append_right, String.eqb_refl.
  rewrite andb_true_r. apply Nat.leb_le. lia.
Qed.

Lemma drop_last_append (s t : string) : drop_last (String.length t) (s +:+ t) = s.
Proof.
  unfold drop_last. rewrite length_append.
  replace (String.length s + String.length t - String.length t)%nat
    with (String.length s) by lia.
  apply substring_append_left.
Qed.

Lemma endswith_bil_name (file : string) : endswith (bil_name file) ".bil" = true.
Proof.
  unfold bil_name. destruct (endswith file ".bil") eqn:E; [exact E|].
  apply endswith_append.
Qed.

Lemma bil_name_idempotent (file : string) : bil_name (bil_name file) = bil_name file.
Proof.
  unfold bil_name at 1. by rewrite endswith_bil_name.
Qed.

Ltac unfold_get_dataset := unfold get_dataset.

Section Names.

Variable find_data : string → option string.
Variable gdal_Open : string → dataset.
Variable read_header :
  string → gmap string (gmap string Q) → option exn * gmap string (gmap string Q).
Variable points_within_distance : Q * Q → Q → Q * Q → Q * Q → list (Q * Q).

Abbreviation get_dataset := (get_dataset find_data gdal_Open read_header).
Abbreviation reachable :=
  (reachable find_data gdal_Open read_header points_within_distance).
Abbreviation run := (run find_data gdal_Open read_header points_within_distance).

(** X1. The extension is optional for [get_dataset]: called with a name
    and with that name followed by [.bil], it does the same thing, to the
    result and to the state. *)
Theorem get_dataset_extension_is_optional file s :
  get_dataset (bil_name file) s = get_dataset file s ∧
  (endswith file ".bil" = false →
   get_dataset (file +:+ ".bil") s = get_dataset file s).
Proof using Type.
  clear points_within_distance.
  assert (H : get_dataset (bil_name file) s = get_dataset file s).
  { unfold_get_dataset. rewrite bil_name_idempotent. reflexivity. }
  split; [exact H|]. intros E. rewrite <- H. unfold bil_name. by rewrite E.
Qed.

Lemma get_dataset_trace file s :
  trace (snd (get_dataset file s)) =
    (trace s ++ external_calls find_data s file)%list.
Proof using Type.
  clear points_within_distance. unfold external_calls.
  destruct (get_dataset_cases find_data gdal_Open read_header file s)
    as [(d & Hd & ->)|[(Hd & Hf & ->)|(path & Hd & Hf & ->)]]; rewrite Hd.
  - unfold_header_then_return.
    destruct (metadata s !! bil_name file); simpl; [by rewrite app_nil_r|].
    pose proof (call_read_header_trace read_header (drop_last 4 (bil_name file)) s)
      as Ht.
    by destruct (call_read_header read_header (drop_last 4 (bil_name file)) s)
      as [[[]|e] s1].
  - rewrite Hf. reflexivity.
  - rewrite Hf. unfold_header_then_return. simpl.
    destruct (metadata s !! bil_name file); simpl; [reflexivity|].
    pose proof (call_read_header_trace read_header (drop_last 4 (bil_name file))
                  (with_dataset gdal_Open s (bil_name file) path)) as Ht.
    destruct (call_read_header read_header (drop_last 4 (bil_name file))
                (with_dataset gdal_Open s (bil_name file) path))
      as [[[]|e] s1]; simpl in *; rewrite Ht, <- app_assoc; reflexivity.
Qed.

Lemma run_trace c s :
  trace (run c s) = (trace s ++ external_calls find_data s (call_file c))%list.
Proof.
  rewrite (run_get_dataset find_data gdal_Open read_header points_within_distance).
  apply get_dataset_trace.
Qed.

(** X2. What leaves the module during a call, whichever of the five
    entry points is called and whether it returns or raises: nothing when
    the layer is cached and [metadata] has its name; otherwise one
    [find_data] and, if it resolves, one [gdal.Open] for an uncached layer,
    then one [read_header] if [metadata] lacks the name with its
    extension.  Nothing is called twice, and a name that does not resolve
    stops the call before [read_header]. *)
Theorem calls_leaving_the_module c s :
  trace (run c s) = (trace s ++ external_calls find_data s (call_file c))%list ∧
  (length (external_calls find_data s (call_file c)) ≤ 3)%nat ∧
  (is_Some (loaded_datasets s !! bil_name (call_file c)) →
   is_Some (metadata s !! bil_name (call_file c)) →
   run c s = s).
Proof.
  split; [apply run_trace|].
  rewrite (run_get_dataset find_data gdal_Open read_header points_within_distance).
  split.
  - unfold external_calls.
    destruct (loaded_datasets s !! bil_name (call_file c)),
      (find_data (bil_name (call_file c))),
      (metadata s !! bil_name (call_file c)); simpl; lia.
  - intros [d Hd] Hm.
    rewrite (get_dataset_cached find_data gdal_Open read_header _ _ _ Hd).
    destruct (header_then_return_state read_header (bil_name (call_file c)) d s)
      as (_ & _ & _ & Hpure & _).
    by rewrite (Hpure Hm).
Qed.

(** X3. The name that [read_header] receives is the name without its
    extension: for a name given without [.bil], on a layer that is cached
    or resolves and whose name with extension is not in [metadata], the
    last call that leaves the module is [read_header] on the name as it was
    given, and [metadata] becomes what that call makes of it. *)
Theorem read_header_gets_the_bare_name c s :
  endswith (call_file c) ".bil" = false →
  metadata s !! (call_file c +:+ ".bil") = None →
  is_Some (loaded_datasets s !! (call_file c +:+ ".bil")) ∨
    is_Some (find_data (call_file c +:+ ".bil")) →
  last (trace (run c s)) = Some (EvReadHeader (call_file c)) ∧
  metadata (run c s) = snd (read_header (call_file c) (metadata s)).
Proof.
  intros E Hm Hres.
  assert (Hk : bil_name (call_file c) = call_file c +:+ ".bil")
    by (unfold bil_name; by rewrite E).
  assert (Hstem : drop_last 4 (call_file c +:+ ".bil") = call_file c)
    by apply (drop_last_append (call_file c) ".bil").
  split.
  - rewrite run_trace.
    unfold external_calls. rewrite Hk, Hm, Hstem.
    destruct (loaded_datasets s !! (call_file c +:+ ".bil")) as [d|] eqn:Hd;
      [by rewrite last_app|].
    destruct Hres as [[? ?]|[path Hp]]; [discriminate|]. rewrite Hp.
    by rewrite last_app.
  - rewrite (run_get_dataset find_data gdal_Open read_header points_within_distance).
    destruct (get_dataset_cases find_data gdal_Open read_header (call_file c) s)
      as [(d & Hd & ->)|[(Hd & Hf & ->)|(path & Hd & Hf & ->)]].
    + unfold_header_then_return. rewrite Hk, Hm, Hstem.
      pose proof (call_read_header_metadata read_header (call_file c) s) as Hmd.
      by destruct (call_read_header read_header (call_file c) s) as [[[]|e] s1].
    + rewrite Hk in Hd, Hf. rewrite Hd, Hf in Hres.
      by destruct Hres as [[? ?]|[? ?]].
    + unfold_header_then_return. simpl. rewrite Hk, Hm, Hstem.
      pose proof (call_read_header_metadata read_header (call_file c)
                    (with_dataset gdal_Open s (call_file c +:+ ".bil") path)) as Hmd.
      by destruct (call_read_header read_header (call_file c)
                     (with_dataset gdal_Open s (call_file c +:+ ".bil") path))
        as [[[]|e] s1].
Qed.

End Names.

(** ** What a call leaves in the cache, and what the header must hold *)

Ltac unfold_extract_attributes := unfold extract_attributes.

Section Caching.

Variable find_data : string → option string.
Variable gdal_Open : string → dataset.
Variable read_header :
  string → gmap string (gmap string Q) → option exn * gmap string (gmap string Q).
Variable points_within_distance : Q * Q → Q → Q * Q → Q * Q → list (Q * Q).

Abbreviation get_dataset := (get_dataset find_data gdal_Open read_header).
Abbreviation extract_attributes :=
  (extract_attributes find_data gdal_Open read_header).
Abbreviation reachable :=
  (reachable find_data gdal_Open read_header points_within_distance).
Abbreviation run := (run find_data gdal_Open read_header points_within_distance).

Lemma run_loaded c s :
  loaded_datasets (run c s) =
    match loaded_datasets s !! bil_name (call_file c),
          find_data (bil_name (call_file c)) with
    | None, Some path =>
        <[bil_name (call_file c) := gdal_Open path]> (loaded_datasets s)
    | _, _ => loaded_datasets s
    end.
Proof.
  rewrite (run_get_dataset find_data gdal_Open read_header points_within_distance).
  destruct (get_dataset_cases find_data gdal_Open read_header (call_file c) s)
    as [(d & Hd & ->)|[(Hd & Hf & ->)|(path & Hd & Hf & ->)]].
  - rewrite Hd.
    by destruct (header_then_return_state read_header (bil_name (call_file c)) d s)
      as (-> & _).
  - by rewrite Hd, Hf.
  - rewrite Hd, Hf.
    by destruct (header_then_return_state read_header (bil_name (call_file c))
                   (gdal_Open path)
                   (with_dataset gdal_Open s (bil_name (call_file c)) path))
      as (-> & _).
Qed.

(** X4. Every key of the cache ends with [.bil], in every state that a
    process can reach from the empty cache. *)
Theorem cache_keys_end_with_bil s k :
  reachable s → is_Some (loaded_datasets s !! k) → endswith k ".bil" = true.
Proof.
  intros Hs; revert k. induction Hs as [md|c s Hs IH]; intros k; simpl.
  - rewrite lookup_empty. by intros [? ?].
  - rewrite run_loaded.
    destruct (loaded_datasets s !! bil_name (call_file c)) as [d|];
      [apply IH|].
    destruct (find_data (bil_name (call_file c))) as [path|]; [|apply IH].
    rewrite lookup_insert. case_decide as Hk; [|apply IH].
    intros _. subst k. apply endswith_bil_name.
Qed.

(** X5. A call on a layer that is not cached and that [find_data]
    resolves leaves the dataset in the cache under the name with its
    extension, whether the call returns or raises afterwards (in
    [read_header], on a missing header entry, on an index out of range).
    A call on a name that [find_data] does not resolve leaves the cache
    and [metadata] as they were. *)
Theorem cache_after_a_call c s :
  loaded_datasets s !! bil_name (call_file c) = None →
  (∀ path, find_data (bil_name (call_file c)) = Some path →
           loaded_datasets (run c s) =
             <[bil_name (call_file c) := gdal_Open path]> (loaded_datasets s)) ∧
  (find_data (bil_name (call_file c)) = None →
   loaded_datasets (run c s) = loaded_datasets s ∧
   metadata (run c s) = metadata s).
Proof.
  intros Hd. split.
  - intros path Hf. by rewrite run_loaded, Hd, Hf.
  - intros Hf. split; [by rewrite run_loaded, Hd, Hf|].
    rewrite (run_get_dataset find_data gdal_Open read_header points_within_distance).
    by rewrite (get_dataset_not_found find_data gdal_Open read_header _ _ Hd Hf).
Qed.

(** X6. What [extract_attributes] needs from the header once
    [get_dataset] has returned.  The header is looked up under the name as
    it was given, not under the name with its extension: with no such
    entry the call raises [KeyError] on that name.  With an entry, the call
    raises [KeyError] on the first of [ulymap], [ulxmap], [ydim], [xdim]
    that is missing, and returns when none is; a missing [nodata] never
    raises. *)
Theorem header_entries_needed file s data s' :
  get_dataset file s = (Ok data, s') →
  (metadata s' !! file = None →
   extract_attributes file s = (Raise (KeyError file), s')) ∧
  (∀ header key,
      metadata s' !! file = Some header → first_missing_key header = Some key →
      extract_attributes file s = (Raise (KeyError key), s')) ∧
  (∀ header,
      metadata s' !! file = Some header → first_missing_key header = None →
      ∃ no_value ul dims,
        extract_attributes file s =
          (Ok (data, ReadAsArray data, no_value, ul, dims,
               (RasterYSize data, RasterXSize data)), s')).
Proof using Type.
  clear points_within_distance.
  intros Hg. unfold_extract_attributes. unfold bindM, liftR, md_lookup.
  rewrite Hg. split; [|split].
  - intros ->. reflexivity.
  - intros header key -> Hkey. revert Hkey. unfold first_missing_key.
    repeat case_decide; intros [= <-];
      repeat match goal with
             | H : _ !! _ = None |- _ => rewrite H
             | H : _ !! _ ≠ None |- _ =>
                 apply not_eq_None_Some in H as [? H]; rewrite H
             end; reflexivity.
  - intros header -> Hkey. revert Hkey. unfold first_missing_key.
    repeat case_decide; try discriminate. intros _.
    repeat match goal with
           | H : _ !! _ ≠ None |- _ =>
               apply not_eq_None_Some in H as [? H]; rewrite H
           end.
    simpl. eauto.
Qed.

End Caching.

(** ** Results, point by point *)

Lemma mapR_length {A B} (f : A → result B) (l : list A) (rs : list B) :
  mapR f l = Ok rs → length rs = length l.
Proof.
  revert rs; induction l as [|x l IH]; intros rs; simpl.
  - by intros [= <-].
  - destruct (f x) as [y|e]; simpl; [|discriminate].
    destruct (mapR f l) as [ys|e]; simpl; [|discriminate].
    intros [= <-]. simpl. by rewrite (IH ys).
Qed.

Lemma mapR_app {A B} (f : A → result B) (l1 l2 : list A) :
  mapR f (l1 ++ l2) =
    (r1 <~ mapR f l1 ;; r2 <~ mapR f l2 ;; Ok (r1 ++ r2)%list).
Proof.
  induction l1 as [|x l1 IH]; simpl.
  - by destruct (mapR f l2).
  - destruct (f x) as [y|e]; simpl; [|reflexivity].
    rewrite IH. destruct (mapR f l1) as [ys|e]; simpl; [|reflexivity].
    by destruct (mapR f l2).
Qed.

Lemma mapR_raises {A B} (f : A → result B) (l : list A) (e0 : exn) x e :
  (∀ y e', f y = Raise e' → e' = e0) →
  x ∈ l → f x = Raise e → mapR f l = Raise e0.
Proof.
  intros Hall Hx Hfx. induction Hx as [x l|x y l Hx IH]; simpl.
  - rewrite Hfx. simpl. by rewrite (Hall _ _ Hfx).
  - destruct (f y) as [b|e'] eqn:Hy; simpl; [|by rewrite (Hall _ _ Hy)].
    by rewrite IH.
Qed.

Lemma mapR_Forall {A B} (f : A → result B) (P : B → Prop) (l : list A) rs :
  (∀ x y, f x = Ok y → P y) → mapR f l = Ok rs → Forall P rs.
Proof.
  intros HP. revert rs; induction l as [|x l IH]; intros rs; simpl.
  - intros [= <-]. constructor.
  - destruct (f x) as [y|e] eqn:Hx; simpl; [|discriminate].
    destruct (mapR f l) as [ys|e]; simpl; [|discriminate].
    intros [= <-]. constructor; eauto.
Qed.

Lemma getitem_raise raster pos e : getitem raster pos = Raise e → e = IndexError.
Proof.
  unfold getitem.
  repeat match goal with
         | |- context [match ?x with _ => _ end] => destruct x
         end; congruence.
Qed.

Lemma getitem_in_raster raster pos :
  in_raster raster pos → ∃ v, getitem raster pos = Ok v.
Proof.
  intros (row & Hr & Hrow & Hc). unfold getitem, np_axis.
  pose proof (lookup_lt_Some _ _ _ Hrow) as Hlt.
  rewrite decide_True by lia. rewrite Hrow.
  rewrite decide_True by lia.
  destruct (lookup_lt_is_Some_2 row (Z.to_nat (snd pos))) as [v Hv]; [lia|].
  rewrite Hv. eauto.
Qed.

(** An index that is negative by no more than the length of the axis
    names the cell that the same index plus the length names. *)
Lemma getitem_wraps_rows raster (r c : Z) :
  (0 ≤ r < Z.of_nat (length raster))%Z →
  getitem raster ((r - Z.of_nat (length raster))%Z, c) = getitem raster (r, c).
Proof.
  intros Hr. unfold getitem, np_axis; simpl.
  rewrite decide_False by lia. rewrite decide_True by lia.
  rewrite (decide_True (P := (0 ≤ r < Z.of_nat (length raster))%Z)) by lia.
  by replace (r - Z.of_nat (length raster) + Z.of_nat (length raster))%Z with r by lia.
Qed.

Section Results.

Variable find_data : string → option string.
Variable gdal_Open : string → dataset.
Variable read_header :
  string → gmap string (gmap string Q) → option exn * gmap string (gmap string Q).
Variable points_within_distance : Q * Q → Q → Q * Q → Q * Q → list (Q * Q).

Abbreviation extract_attributes :=
  (extract_attributes find_data gdal_Open read_header).
Abbreviation get_values := (get_values find_data gdal_Open read_header).
Abbreviation get_average :=
  (get_average find_data gdal_Open read_header points_within_distance).
Abbreviation get_spatial_variance :=
  (get_spatial_variance find_data gdal_Open read_header points_within_distance).
Abbreviation average_at := (average_at points_within_distance).
Abbreviation variance_at := (variance_at points_within_distance).
Abbreviation neighbourhood_values := (neighbourhood_values points_within_distance).
Abbreviation raster_positions := (raster_positions points_within_distance).

(** Each operation either raises what [extract_attributes] raises, or
    runs its loop on the attributes that [extract_attributes] returns. *)
Lemma sampling_cases file points radius s :
  (∃ e s', extract_attributes file s = (Raise e, s') ∧
           get_values file points s = (Raise e, s') ∧
           get_average file points radius s = (Raise e, s') ∧
           get_spatial_variance file points radius s = (Raise e, s')) ∨
  (∃ data raster no_value ul dims size s',
      extract_attributes file s = (Ok (data, raster, no_value, ul, dims, size), s') ∧
      get_values file points s =
        (result0 <~ mapR (fun p => v <~ getitem raster (xy_coords p ul dims size) ;;
                                   Ok (float v)) points ;;
         Ok (map (fun value => if Qeq_bool value no_value then None else Some value)
               result0), s') ∧
      get_average file points radius s =
        (mapR (average_at raster no_value ul dims size radius) points, s') ∧
      get_spatial_variance file points radius s =
        (mapR (variance_at raster no_value ul dims size radius) points, s')).
Proof.
  destruct (extract_attributes file s) as [[attrs|e] s'] eqn:He.
  - right. destruct attrs as [[[[[data raster] no_value] ul] dims] size].
    exists data, raster, no_value, ul, dims, size, s'.
    split; [reflexivity|].
    split; [exact (get_values_run _ _ _ _ _ _ _ _ _ _ _ _ _ He)|].
    split; [exact (get_average_run _ _ _ _ _ _ _ _ _ _ _ _ _ _ _ He)|].
    exact (get_spatial_variance_run _ _ _ _ _ _ _ _ _ _ _ _ _ _ _ He).
  - left. exists e, s'. split; [reflexivity|]. by apply sampling_raise.
Qed.

(** X7. When an operation returns, it returns one result for each point
    it was given: the list has the length of [points]. *)
Theorem one_result_for_each_point file points radius s results s' :
  (get_values file points s = (Ok results, s') → length results = length points) ∧
  (get_average file points radius s = (Ok results, s') →
   length results = length points) ∧
  (get_spatial_variance file points radius s = (Ok results, s') →
   length results = length points).
Proof.
  destruct (sampling_cases file points radius s)
    as [(e & s1 & _ & -> & -> & ->)
       |(data & raster & no_value & ul & dims & size & s1 & _ & -> & -> & ->)].
  - repeat split; discriminate.
  - split; [|split]; intros [= H _].
    + destruct (mapR _ points) as [vs|e] eqn:Hvs; simpl in H; [|discriminate].
      injection H as <-. rewrite length_map. by apply mapR_length in Hvs.
    + by apply mapR_length in H.
    + by apply mapR_length in H.
Qed.

(** X8. A point whose cell index falls outside the array makes
    [get_values] raise [IndexError] for the whole call, wherever the point
    stands in the list; no result is returned for the other points.  The
    layer stays loaded: the state is the one [extract_attributes] left. *)
Theorem point_outside_the_array_raises
    file points s data raster no_value ul dims size s' p e :
  extract_attributes file s = (Ok (data, raster, no_value, ul, dims, size), s') →
  p ∈ points →
  getitem raster (xy_coords p ul dims size) = Raise e →
  get_values file points s = (Raise IndexError, s').
Proof using Type.
  clear points_within_distance.
  intros He Hp Hraise. rewrite (get_values_run _ _ _ _ _ _ _ _ _ _ _ _ _ He).
  erewrite (mapR_raises _ points IndexError p e); [reflexivity| |exact Hp|].
  - intros y e'. destruct (getitem raster (xy_coords y ul dims size)) eqn:Hy;
      simpl; [discriminate|]. intros [= <-]. by apply getitem_raise in Hy.
  - by rewrite Hraise.
Qed.

(** X9. When every point has its cell index inside the array,
    [get_values] returns: each result is the missing marker or the cell of
    the point, according to the comparison with the sentinel. *)
Theorem points_inside_the_array_are_read
    file points s data raster no_value ul dims size s' :
  extract_attributes file s = (Ok (data, raster, no_value, ul, dims, size), s') →
  Forall (fun p => in_raster raster (xy_coords p ul dims size)) points →
  ∃ cells,
    Forall2 (fun p v => getitem raster (xy_coords p ul dims size) = Ok v)
      points cells ∧
    get_values file points s =
      (Ok (map (fun v => if Qeq_bool v no_value then None else Some v) cells), s').
Proof using Type.
  clear points_within_distance.
  intros He Hin.
  assert (Hcells : ∃ cells,
             Forall2 (fun p v => getitem raster (xy_coords p ul dims size) = Ok v)
               points cells).
  { induction Hin as [|p ps Hp _ [cells IH]]; [by exists []|].
    destruct (getitem_in_raster _ _ Hp) as [v Hv].
    exists (v :: cells). by constructor. }
  destruct Hcells as [cells Hcells]. exists cells. split; [exact Hcells|].
  rewrite (get_values_run _ _ _ _ _ _ _ _ _ _ _ _ _ He).
  rewrite (mapR_Forall2_map _ (fun v => v) points cells), map_id; [reflexivity|].
  eapply Forall2_impl; [exact Hcells|]. simpl. by intros p v ->.
Qed.

(** X10. The results of a list of points are the results of its parts,
    one after the other: when an operation returns on [ps] and on [qs] from
    the same state, it returns the concatenation on [ps ++ qs], and leaves
    the same state as either call. *)
Theorem results_of_a_concatenation file ps qs radius s :
  (∀ r1 r2 s1 s2,
      get_values file ps s = (Ok r1, s1) → get_values file qs s = (Ok r2, s2) →
      s2 = s1 ∧ get_values file (ps ++ qs) s = (Ok (r1 ++ r2)%list, s1)) ∧
  (∀ r1 r2 s1 s2,
      get_average file ps radius s = (Ok r1, s1) →
      get_average file qs radius s = (Ok r2, s2) →
      s2 = s1 ∧ get_average file (ps ++ qs) radius s = (Ok (r1 ++ r2)%list, s1)) ∧
  (∀ r1 r2 s1 s2,
      get_spatial_variance file ps radius s = (Ok r1, s1) →
      get_spatial_variance file qs radius s = (Ok r2, s2) →
      s2 = s1 ∧
      get_spatial_variance file (ps ++ qs) radius s = (Ok (r1 ++ r2)%list, s1)).
Proof.
  destruct (extract_attributes file s) as [[attrs|e] s'] eqn:He.
  - destruct attrs as [[[[[data raster] no_value] ul] dims] size].
    rewrite !(get_values_run _ _ _ _ _ _ _ _ _ _ _ _ _ He).
    rewrite !(get_average_run _ _ _ _ _ _ _ _ _ _ _ _ _ _ _ He).
    rewrite !(get_spatial_variance_run _ _ _ _ _ _ _ _ _ _ _ _ _ _ _ He).
    rewrite !mapR_app.
    split; [|split]; intros r1 r2 s1 s2.
    + destruct (mapR _ ps) as [v1|]; simpl; [|discriminate].
      destruct (mapR _ qs) as [v2|]; simpl; [|discriminate].
      intros [= <- <-] [= <- <-]. by rewrite map_app.
    + intros [= -> <-] [= -> <-]. done.
    + intros [= -> <-] [= -> <-]. done.
  - destruct (sampling_raise find_data gdal_Open read_header points_within_distance
                file ps radius s e s' He) as (-> & -> & ->).
    repeat split; discriminate.
Qed.

End Results.

(** ** The mean and the variance that the loops return *)

Lemma len_nonneg (l : list Q) : (0 <= len l)%Q.
Proof.
  unfold len. change 0%Q with (inject_Z 0). rewrite <- Zle_Qle. lia.
Qed.

Lemma total_nonneg (l : list Q) : Forall (fun v => (0 <= v)%Q) l → (0 <= total l)%Q.
Proof.
  induction 1 as [|x l Hx _ IH]; simpl; [apply Qle_refl|].
  change 0%Q with (0 + 0)%Q. by apply Qplus_le_compat.
Qed.

Lemma Qsquare_nonneg (a : Q) : (0 <= a * a)%Q.
Proof. destruct a as [n d]. unfold Qle, Qmult; simpl. nia. Qed.

Lemma np_var_nonneg (l : list Q) : (0 <= np_var l)%Q.
Proof.
  unfold np_var, np_mean. rewrite sum_total.
  apply Qmult_le_0_compat.
  - apply total_nonneg, Forall_forall. intros v Hv.
    apply list_elem_of_fmap in Hv as (x & -> & _).
    apply Qsquare_nonneg.
  - apply Qinv_le_0_compat, len_nonneg.
Qed.

Section Aggregates.

Variable find_data : string → option string.
Variable gdal_Open : string → dataset.
Variable read_header :
  string → gmap string (gmap string Q) → option exn * gmap string (gmap string Q).
Variable points_within_distance : Q * Q → Q → Q * Q → Q * Q → list (Q * Q).

Abbreviation extract_attributes :=
  (extract_attributes find_data gdal_Open read_header).
Abbreviation get_values := (get_values find_data gdal_Open read_header).
Abbreviation get_average :=
  (get_average find_data gdal_Open read_header points_within_distance).
Abbreviation get_spatial_variance :=
  (get_spatial_variance find_data gdal_Open read_header points_within_distance).
Abbreviation average_at := (average_at points_within_distance).
Abbreviation variance_at := (variance_at points_within_distance).
Abbreviation neighbourhood_values := (neighbourhood_values points_within_distance).

(** X11. A variance that [get_spatial_variance] returns is never
    negative. *)
Theorem variance_is_never_negative file points radius s results s' :
  get_spatial_variance file points radius s = (Ok results, s') →
  Forall (fun r => ∀ q, r = Some q → (0 <= q)%Q) results.
Proof.
  intros Hrun.
  destruct (extract_attributes file s) as [[attrs|e] s1] eqn:He.
  - destruct attrs as [[[[[data raster] no_value] ul] dims] size].
    rewrite (get_spatial_variance_run _ _ _ _ _ _ _ _ _ _ _ _ _ _ _ He) in Hrun.
    injection Hrun as Hrun _.
    refine (mapR_Forall _ _ _ _ _ Hrun). intros point r.
    unfold_variance_at.
    destruct (Qlt_bool 60 (Qabs (fst point))); [by intros [= <-]|].
    destruct (neighbourhood_values raster no_value ul dims size radius point)
      as [values|]; simpl; [|discriminate].
    destruct (length values =? 0)%nat; intros [= <-]; [done|].
    intros q [= <-]. apply np_var_nonneg.
  - destruct (sampling_raise find_data gdal_Open read_header points_within_distance
                file points radius s e s1 He) as (_ & _ & Hv).
    rewrite Hv in Hrun. discriminate.
Qed.

(** X13. At a point of latitude at most 60 in absolute value, the two
    neighbourhood operations succeed and fail together: where
    [get_average] raises, [get_spatial_variance] raises the same
    exception, and where it returns, [get_spatial_variance] returns with
    the missing marker at exactly the same positions. *)
Theorem average_and_variance_are_missing_together file points radius s :
  Forall (fun point => (Qabs (fst point) <= 60)%Q) points →
  (∀ e s', get_average file points radius s = (Raise e, s') →
           get_spatial_variance file points radius s = (Raise e, s')) ∧
  (∀ averages s',
      get_average file points radius s = (Ok averages, s') →
      ∃ variances,
        get_spatial_variance file points radius s = (Ok variances, s') ∧
        Forall2 (fun a v => a = None ↔ v = None) averages variances).
Proof.
  intros Hlat.
  destruct (extract_attributes file s) as [[attrs|e] s1] eqn:He.
  - destruct attrs as [[[[[data raster] no_value] ul] dims] size].
    rewrite (get_average_run _ _ _ _ _ _ _ _ _ _ _ _ _ _ _ He).
    rewrite (get_spatial_variance_run _ _ _ _ _ _ _ _ _ _ _ _ _ _ _ He).
    assert (Hpoint : ∀ point, (Qabs (fst point) <= 60)%Q →
              match average_at raster no_value ul dims size radius point with
              | Raise e => variance_at raster no_value ul dims size radius point
                           = Raise e
              | Ok a => ∃ v, variance_at raster no_value ul dims size radius point
                             = Ok v ∧ (a = None ↔ v = None)
              end).
    { intros point Hp. unfold_average_at. unfold_variance_at.
      rewrite (Qlt_bool_false _ _ Hp).
      destruct (neighbourhood_values raster no_value ul dims size radius point)
        as [values|]; simpl; [|reflexivity].
      destruct (length values =? 0)%nat; eexists; (split; [reflexivity|]);
        split; congruence. }
    induction Hlat as [|point ps Hp _ [IHraise IHok]]; simpl.
    + split; [discriminate|]. intros averages s' [= <- <-]. eauto.
    + specialize (Hpoint point Hp).
      destruct (average_at raster no_value ul dims size radius point) as [a|e0].
      * destruct Hpoint as (v & -> & Hav). simpl.
        destruct (mapR (average_at raster no_value ul dims size radius) ps)
          as [as_|e1]; simpl.
        -- split; [discriminate|]. intros averages s' [= <- <-].
           destruct (IHok as_ s1 eq_refl) as (vs & [= ->] & Hvs).
           simpl. eauto.
        -- split; [|discriminate]. intros e s' [= <- <-].
           injection (IHraise e1 s1 eq_refl) as ->. reflexivity.
      * rewrite Hpoint. simpl. split; [done|discriminate].
  - destruct (sampling_raise find_data gdal_Open read_header points_within_distance
                file points radius s e s1 He) as (_ & -> & ->).
    split; [done|discriminate].
Qed.

End Aggregates.

(** ** Edges of the raster, radius 0, and what the cache holds *)

Section Edges.

Variable find_data : string → option string.
Variable gdal_Open : string → dataset.
Variable read_header :
  string → gmap string (gmap string Q) → option exn * gmap string (gmap string Q).
Variable points_within_distance : Q * Q → Q → Q * Q → Q * Q → list (Q * Q).

Abbreviation get_dataset := (get_dataset find_data gdal_Open read_header).
Abbreviation extract_attributes :=
  (extract_attributes find_data gdal_Open read_header).
Abbreviation get_values := (get_values find_data gdal_Open read_header).
Abbreviation get_average :=
  (get_average find_data gdal_Open read_header points_within_distance).
Abbreviation reachable :=
  (reachable find_data gdal_Open read_header points_within_distance).

(** X14. With radius 0, and an enumerator that returns each of the
    points alone at that radius, [get_average] is [get_values] on any list
    of points: the same results in the same order, or the same exception,
    and the same final state. *)
Theorem zero_radius_average_is_lookup_on_lists file points s :
  Forall (fun p => ∀ ul dims, points_within_distance p 0%Q ul dims = [p]) points →
  get_average file points 0%Q s = get_values file points s.
Proof. apply zero_radius_average_is_lookup_list. Qed.

(** X15. Nothing checks a cell index against the array before the read:
    a point whose row index is negative by no more than the number of rows
    is answered, without any error, with the cell of the point that many
    rows further down. *)
Theorem point_above_the_array_reads_from_below
    file s data raster no_value ul dims size s' p p' :
  extract_attributes file s = (Ok (data, raster, no_value, ul, dims, size), s') →
  (0 ≤ fst (xy_coords p ul dims size) < Z.of_nat (length raster))%Z →
  xy_coords p' ul dims size =
    ((fst (xy_coords p ul dims size) - Z.of_nat (length raster))%Z,
     snd (xy_coords p ul dims size)) →
  get_values file [p'] s = get_values file [p] s.
Proof using Type.
  clear points_within_distance.
  intros He Hr Hp'. rewrite !(get_values_run _ _ _ _ _ _ _ _ _ _ _ _ _ He).
  rewrite !mapR_singleton, Hp', getitem_wraps_rows by exact Hr.
  by rewrite <- surjective_pairing.
Qed.

(** X16. In a process that started with an empty cache, the dataset that
    [get_dataset] returns is the one [gdal.Open] gives for the path that
    [find_data] resolves the name with its extension to. *)
Theorem get_dataset_returns_the_resolved_file file s data s' :
  reachable s →
  get_dataset file s = (Ok data, s') →
  ∃ path, find_data (bil_name file) = Some path ∧ data = gdal_Open path.
Proof.
  intros Hs Hg.
  destruct (reachable_cache find_data gdal_Open read_header points_within_distance
              s Hs) as [Hres _].
  destruct (get_dataset_cases find_data gdal_Open read_header file s)
    as [(d & Hd & Hrun)|[(Hd & Hf & Hrun)|(path & Hd & Hf & Hrun)]];
    rewrite Hrun in Hg.
  - destruct (header_then_return_state read_header (bil_name file) d s)
      as (_ & _ & _ & _ & Hret).
    rewrite Hg in Hret. rewrite (Hret data eq_refl). by apply Hres.
  - discriminate.
  - destruct (header_then_return_state read_header (bil_name file) (gdal_Open path)
                (with_dataset gdal_Open s (bil_name file) path))
      as (_ & _ & _ & _ & Hret).
    rewrite Hg in Hret. rewrite (Hret data eq_refl). eauto.
Qed.

End Edges.

(** ** The further properties on the layers of the equator *)

Lemma hills_reachable :
  reachable Fixture.find_data Fixture.gdal_Open Fixture.read_header
    Fixture.points_within_distance Fixture.hills_loaded.
Proof.
  apply (reachable_call _ _ _ _ (CallExtractAttributes "hills") Fixture.start).
  apply reachable_start.
Defined.

Lemma get_dataset_extension_is_optional_witness :
  get_dataset Fixture.find_data Fixture.gdal_Open Fixture.read_header
    "hills.bil" Fixture.start =
  get_dataset Fixture.find_data Fixture.gdal_Open Fixture.read_header
    "hills" Fixture.start.
Proof.
  destruct (get_dataset_extension_is_optional Fixture.find_data Fixture.gdal_Open
              Fixture.read_header "hills" Fixture.start) as [_ H].
  apply H. reflexivity.
Defined.

Lemma calls_leaving_the_module_witness :
  trace (run Fixture.find_data Fixture.gdal_Open Fixture.read_header
           Fixture.points_within_distance
           (CallGetAverage "lake" [(0, 0)%Q] 120%Q) Fixture.hills_loaded) =
  [EvFindData "hills.bil"; EvOpen "hills.bil" "data/hills.bil"; EvReadHeader "hills";
   EvFindData "lake.bil"; EvOpen "lake.bil" "data/lake.bil"; EvReadHeader "lake"].
Proof.
  destruct (calls_leaving_the_module Fixture.find_data Fixture.gdal_Open
              Fixture.read_header Fixture.points_within_distance
              (CallGetAverage "lake" [(0, 0)%Q] 120%Q) Fixture.hills_loaded)
    as [-> _].
  vm_compute. reflexivity.
Defined.

Lemma read_header_gets_the_bare_name_witness :
  last (trace (run Fixture.find_data Fixture.gdal_Open Fixture.read_header
                 Fixture.points_within_distance
                 (CallGetValues "lake" [(0, 0)%Q]) Fixture.start))
    = Some (EvReadHeader "lake") ∧
  metadata (run Fixture.find_data Fixture.gdal_Open Fixture.read_header
              Fixture.points_within_distance
              (CallGetValues "lake" [(0, 0)%Q]) Fixture.start)
    = snd (Fixture.read_header "lake" (metadata Fixture.start)).
Proof.
  apply (read_header_gets_the_bare_name Fixture.find_data Fixture.gdal_Open
           Fixture.read_header Fixture.points_within_distance
           (CallGetValues "lake" [(0, 0)%Q]) Fixture.start).
  - reflexivity.
  - reflexivity.
  - right. vm_compute. eauto.
Defined.

Lemma cache_keys_end_with_bil_witness :
  endswith "hills.bil" ".bil" = true.
Proof.
  apply (cache_keys_end_with_bil Fixture.find_data Fixture.gdal_Open
           Fixture.read_header Fixture.points_within_distance
           Fixture.hills_loaded "hills.bil").
  - exact hills_reachable.
  - vm_compute. eauto.
Defined.

(** A call on a point outside the raster raises, and the layer is cached
    all the same. *)
Lemma cache_after_a_call_witness :
  fst (Fixture.values "hills" [(0, 10)%Q] Fixture.start) = Raise IndexError ∧
  loaded_datasets (run Fixture.find_data Fixture.gdal_Open Fixture.read_header
                     Fixture.points_within_distance
                     (CallGetValues "hills" [(0, 10)%Q]) Fixture.start)
    = <["hills.bil" := Fixture.gdal_Open "data/hills.bil"]> ∅.
Proof.
  split; [vm_compute; reflexivity|].
  destruct (cache_after_a_call Fixture.find_data Fixture.gdal_Open
              Fixture.read_header Fixture.points_within_distance
              (CallGetValues "hills" [(0, 10)%Q]) Fixture.start) as [H _].
  - reflexivity.
  - apply (H "data/hills.bil"). reflexivity.
Defined.

(** The header of [hills] is stored under ["hills"]: asked for
    ["hills.bil"], [extract_attributes] loads the layer and then raises. *)
Lemma header_entries_needed_witness :
  extract_attributes Fixture.find_data Fixture.gdal_Open Fixture.read_header
    "hills.bil" Fixture.start = (Raise (KeyError "hills.bil"), Fixture.hills_loaded).
Proof.
  destruct (header_entries_needed Fixture.find_data Fixture.gdal_Open
              Fixture.read_header "hills.bil" Fixture.start
              (Fixture.gdal_Open "data/hills.bil") Fixture.hills_loaded) as [H _].
  - vm_compute. reflexivity.
  - apply H. vm_compute. reflexivity.
Defined.

Lemma one_result_for_each_point_witness :
  length [Some 0%Q; Some 10%Q; Some 0%Q] = length [(0, 0); (1, 0); (0, 1)]%Q.
Proof.
  destruct (one_result_for_each_point Fixture.find_data Fixture.gdal_Open
              Fixture.read_header Fixture.points_within_distance "hills"
              [(0, 0); (1, 0); (0, 1)]%Q 40%Q Fixture.start
              [Some 0%Q; Some 10%Q; Some 0%Q] Fixture.hills_loaded) as [H _].
  apply H. vm_compute. reflexivity.
Defined.

Lemma point_outside_the_array_raises_witness :
  Fixture.values "hills" [(0, 0); (0, 10); (1, 0)]%Q Fixture.start =
    (Raise IndexError, Fixture.hills_loaded).
Proof.
  apply (point_outside_the_array_raises Fixture.find_data Fixture.gdal_Open
           Fixture.read_header "hills" [(0, 0); (0, 10); (1, 0)]%Q Fixture.start
           (Fixture.gdal_Open "data/hills.bil") Fixture.hills (-9999)%Q
           (5 # 2, - 5 # 2)%Q (1, 1)%Q (5, 5)%Z Fixture.hills_loaded
           (0, 10)%Q IndexError).
  - exact hills_attributes.
  - apply list_elem_of_further, list_elem_of_here.
  - vm_compute. reflexivity.
Defined.

Lemma points_inside_the_array_are_read_witness :
  ∃ cells,
    Forall2 (fun p v => getitem Fixture.hills
                          (xy_coords p (5 # 2, - 5 # 2)%Q (1, 1)%Q (5, 5)%Z) = Ok v)
      [(0, 0); (1, 0)]%Q cells ∧
    Fixture.values "hills" [(0, 0); (1, 0)]%Q Fixture.start =
      (Ok (map (fun v => if Qeq_bool v (-9999) then None else Some v) cells),
       Fixture.hills_loaded).
Proof.
  apply (points_inside_the_array_are_read Fixture.find_data Fixture.gdal_Open
           Fixture.read_header "hills" [(0, 0); (1, 0)]%Q Fixture.start
           (Fixture.gdal_Open "data/hills.bil") Fixture.hills (-9999)%Q
           (5 # 2, - 5 # 2)%Q (1, 1)%Q (5, 5)%Z Fixture.hills_loaded).
  - exact hills_attributes.
  - apply Forall_cons; split; [|apply Forall_cons; split; [|constructor]];
      (eexists; split; [vm_compute; discriminate|];
       split; [vm_compute; reflexivity|];
       vm_compute; split; [discriminate|reflexivity]).
Defined.

Lemma results_of_a_concatenation_witness :
  Fixture.values "hills" ([(0, 0)%Q] ++ [(1, 0)%Q]) Fixture.start =
    (Ok ([Some 0%Q] ++ [Some 10%Q])%list, Fixture.hills_loaded).
Proof.
  destruct (results_of_a_concatenation Fixture.find_data Fixture.gdal_Open
              Fixture.read_header Fixture.points_within_distance "hills"
              [(0, 0)%Q] [(1, 0)%Q] 40%Q Fixture.start) as [H _].
  apply (H [Some 0%Q] [Some 10%Q] Fixture.hills_loaded Fixture.hills_loaded);
    vm_compute; reflexivity.
Defined.

Lemma variance_is_never_negative_witness :
  Forall (fun r => ∀ q, r = Some q → (0 <= q)%Q)
    [Some (1171875000 # 48828125)%Q; None].
Proof.
  apply (variance_is_never_negative Fixture.find_data Fixture.gdal_Open
           Fixture.read_header Fixture.points_within_distance "hills"
           [(0, 0); (61, 0)]%Q 120%Q Fixture.start
           [Some (1171875000 # 48828125)%Q; None] Fixture.hills_loaded).
  vm_compute. reflexivity.
Defined.

Lemma average_and_variance_are_missing_together_witness :
  ∃ variances,
    Fixture.variance "lake" [(0, 0); (1, 0)]%Q 0%Q Fixture.start =
      (Ok variances, Fixture.lake_loaded) ∧
    Forall2 (fun a v => a = None ↔ v = None) [None; Some 10%Q] variances.
Proof.
  destruct (average_and_variance_are_missing_together Fixture.find_data
              Fixture.gdal_Open Fixture.read_header Fixture.points_within_distance
              "lake" [(0, 0); (1, 0)]%Q 0%Q Fixture.start) as [_ H].
  - apply Forall_cons; split; [vm_compute; discriminate|].
    apply Forall_cons; split; [vm_compute; discriminate|constructor].
  - apply H. vm_compute. reflexivity.
Defined.

Lemma zero_radius_average_is_lookup_on_lists_witness :
  Fixture.average "lake" [(0, 0); (1, 0); (0, 10)]%Q 0%Q Fixture.start =
  Fixture.values "lake" [(0, 0); (1, 0); (0, 10)]%Q Fixture.start.
Proof.
  apply (zero_radius_average_is_lookup_on_lists Fixture.find_data Fixture.gdal_Open
           Fixture.read_header Fixture.points_within_distance "lake"
           [(0, 0); (1, 0); (0, 10)]%Q Fixture.start).
  repeat (apply Forall_cons; split; [intros ul dims; reflexivity|]).
  constructor.
Defined.

(** The point (5, 0) lies north of [hills], in row -3; it is answered with
    the cell of row 2, that of the point (0, 0). *)
Lemma point_above_the_array_reads_from_below_witness :
  xy_coords (5, 0)%Q (5 # 2, - 5 # 2)%Q (1, 1)%Q (5, 5)%Z = (-3, 2)%Z ∧
  Fixture.values "hills" [(5, 0)%Q] Fixture.start =
  Fixture.values "hills" [(0, 0)%Q] Fixture.start.
Proof.
  split; [vm_compute; reflexivity|].
  apply (point_above_the_array_reads_from_below Fixture.find_data Fixture.gdal_Open
           Fixture.read_header "hills" Fixture.start
           (Fixture.gdal_Open "data/hills.bil") Fixture.hills (-9999)%Q
           (5 # 2, - 5 # 2)%Q (1, 1)%Q (5, 5)%Z Fixture.hills_loaded
           (0, 0)%Q (5, 0)%Q).
  - exact hills_attributes.
  - vm_compute. split; [discriminate|reflexivity].
  - vm_compute. reflexivity.
Defined.

Lemma get_dataset_returns_the_resolved_file_witness :
  ∃ path, Fixture.find_data (bil_name "lake") = Some path ∧
          Fixture.gdal_Open "data/lake.bil" = Fixture.gdal_Open path.
Proof.
  apply (get_dataset_returns_the_resolved_file Fixture.find_data Fixture.gdal_Open
           Fixture.read_header Fixture.points_within_distance "lake"
           Fixture.hills_loaded (Fixture.gdal_Open "data/lake.bil")
           (run Fixture.find_data Fixture.gdal_Open Fixture.read_header
              Fixture.points_within_distance (CallGetDataset "lake")
              Fixture.hills_loaded)).
  - exact hills_reachable.
  - vm_compute. reflexivity.
Defined.

(** ** The neighbourhood as the radius grows *)

Lemma offsets_succ (n : nat) :
  offsets (S n) = ((- Z.of_nat (S n))%Z :: offsets n ++ [Z.of_nat (S n)])%list.
Proof.
  unfold offsets.
  replace (2 * S n + 1)%nat with (S (S (2 * n + 1))) by lia.
  remember (2 * n + 1)%nat as k eqn:Hk.
  change (seq 0 (S (S k))) with (0%nat :: seq 1 (S k)).
  rewrite (seq_S k 1), <- (seq_shift k 0).
  cbn [map]. rewrite map_app, map_map. cbn [map].
  f_equal. f_equal.
  - apply map_ext. intros j. lia.
  - f_equal. lia.
Qed.

Lemma offsets_sublist (n m : nat) : (n ≤ m)%nat → offsets n `sublist_of` offsets m.
Proof.
  induction 1 as [|m _ IH]; [reflexivity|].
  rewrite offsets_succ. apply sublist_cons. by apply sublist_inserts_r.
Qed.

Lemma bind_sublist_both {A B} (f g : A → list B) (l1 l2 : list A) :
  l1 `sublist_of` l2 → (∀ x, f x `sublist_of` g x) →
  l1 ≫= f `sublist_of` l2 ≫= g.
Proof.
  intros Hl Hfg. induction Hl as [|x l1 l2 _ IH|x l1 l2 _ IH].
  - reflexivity.
  - rewrite !bind_cons. by apply sublist_app.
  - rewrite bind_cons. by apply sublist_inserts_l.
Qed.

Lemma filter_sublist_both {A} (P R : A → Prop)
    `{!∀ x, Decision (P x)} `{!∀ x, Decision (R x)} (l1 l2 : list A) :
  l1 `sublist_of` l2 → (∀ x, P x → R x) →
  filter P l1 `sublist_of` filter R l2.
Proof.
  intros Hl HPR. induction Hl as [|x l1 l2 _ IH|x l1 l2 _ IH].
  - reflexivity.
  - rewrite !filter_cons. destruct (decide (P x)) as [HP|HP].
    + rewrite decide_True by auto. by apply sublist_skip.
    + destruct (decide (R x)); [by apply sublist_cons|exact IH].
  - rewrite filter_cons. destruct (decide (R x)); [by apply sublist_cons|exact IH].
Qed.

(** The enumerator of the spec at two positive radii: a distance test
    and a bounding box that grow with the radius give nested results. *)
Lemma grid_points_nested is_within half_extent centre r1 r2 ul dims :
  (∀ q, is_within centre q r1 = true → is_within centre q r2 = true) →
  (fst (half_extent centre r1 dims) ≤ fst (half_extent centre r2 dims))%nat →
  (snd (half_extent centre r1 dims) ≤ snd (half_extent centre r2 dims))%nat →
  Qeq_bool r1 0 = false → Qeq_bool r2 0 = false →
  grid_points_within_distance is_within half_extent centre r1 ul dims
    `sublist_of`
  grid_points_within_distance is_within half_extent centre r2 ul dims.
Proof.
  intros Hw Hlat Hlon E1 E2. unfold grid_points_within_distance.
  rewrite E1, E2.
  destruct (xy_coords centre ul dims (0%Z, 0%Z)) as [r0 c0].
  destruct (half_extent centre r1 dims) as [a1 b1],
    (half_extent centre r2 dims) as [a2 b2]. simpl in Hlat, Hlon.
  apply filter_sublist_both; [|exact Hw].
  apply bind_sublist_both; [by apply offsets_sublist|]. intros i.
  apply bind_sublist_both; [by apply offsets_sublist|]. intros j. reflexivity.
Qed.

Lemma Qeq_bool_pos (r : Q) : (0 < r)%Q → Qeq_bool r 0 = false.
Proof.
  intros Hr. destruct (Qeq_bool r 0) eqn:E; [|reflexivity].
  apply Qeq_bool_iff in E. rewrite E in Hr. discriminate.
Qed.

(** C6, as amended. With the enumerator of the spec over a distance test
    and a bounding box that grow with the radius, and radii
    [0 < r1 <= r2]: when the call at [r2] reads its cells, the call at
    [r1] reads its cells too, and the valid values it collects are a
    sub-list of those collected at [r2], so there are no more of them. *)
Theorem valid_count_grows_with_radius
    is_within half_extent raster no_value ul dims size r1 r2 point values2 :
  (∀ c q r r', (r <= r')%Q → is_within c q r = true → is_within c q r' = true) →
  (∀ c r r', (r <= r')%Q →
             (fst (half_extent c r dims) ≤ fst (half_extent c r' dims))%nat ∧
             (snd (half_extent c r dims) ≤ snd (half_extent c r' dims))%nat) →
  (0 < r1)%Q → (r1 <= r2)%Q →
  neighbourhood_values (grid_points_within_distance is_within half_extent)
    raster no_value ul dims size r2 point = Ok values2 →
  ∃ values1,
    neighbourhood_values (grid_points_within_distance is_within half_extent)
      raster no_value ul dims size r1 point = Ok values1 ∧
    values1 `sublist_of` values2 ∧
    (length values1 ≤ length values2)%nat.
Proof.
  intros Hw Hbox Hpos Hle.
  apply valid_count_grows_with_neighbourhood.
  unfold raster_positions. apply fmap_sublist.
  destruct (Hbox point r1 r2 Hle) as [Hlat Hlon].
  apply grid_points_nested; auto using Qeq_bool_pos.
  - intros q. by apply Hw.
  - apply Qeq_bool_pos. by apply Qlt_le_trans with r1.
Qed.

Lemma equator_within_grows c q r r' :
  (r <= r')%Q → Fixture.equator_within c q r = true →
  Fixture.equator_within c q r' = true.
Proof.
  intros Hle. unfold Fixture.equator_within.
  rewrite !andb_true_iff, !Qle_bool_iff. intros [H0 HD].
  split; [by apply Qle_trans with r|].
  eapply Qle_trans; [exact HD|]. by apply Qmult_le_compat_nonneg.
Qed.

Lemma equator_extent_grows c r r' :
  (r <= r')%Q →
  (fst (Fixture.equator_extent c r (1, 1)%Q)
     ≤ fst (Fixture.equator_extent c r' (1, 1)%Q))%nat ∧
  (snd (Fixture.equator_extent c r (1, 1)%Q)
     ≤ snd (Fixture.equator_extent c r' (1, 1)%Q))%nat.
Proof.
  intros Hle. unfold Fixture.equator_extent. cbn [fst snd].
  assert (H : (Qceiling (r / (Fixture.km_per_degree * 1))
               ≤ Qceiling (r' / (Fixture.km_per_degree * 1)))%Z).
  { apply Qceiling_resp_le. apply Qmult_le_compat_r; [exact Hle|].
    vm_compute. discriminate. }
  lia.
Qed.

Lemma valid_count_grows_with_radius_witness :
  ∃ values1,
    neighbourhood_values Fixture.points_within_distance Fixture.lake (-9999)%Q
      (5 # 2, - 5 # 2)%Q (1, 1)%Q (5, 5)%Z 120%Q (0, 0)%Q = Ok values1 ∧
    values1 `sublist_of` [4; 10; 4; 0; 0; 4; 10; 4]%Q ∧
    (length values1 ≤ length [4; 10; 4; 0; 0; 4; 10; 4]%Q)%nat.
Proof.
  apply (valid_count_grows_with_radius Fixture.equator_within Fixture.equator_extent
           Fixture.lake (-9999)%Q (5 # 2, - 5 # 2)%Q (1, 1)%Q (5, 5)%Z
           120%Q 200%Q (0, 0)%Q).
  - exact equator_within_grows.
  - exact equator_extent_grows.
  - reflexivity.
  - vm_compute. discriminate.
  - vm_compute. reflexivity.
Defined.

(** C6, as stated, fails on both counts.  Around the point (0, 0) of
    [hills] the variance is 24 within 120 km (five cells) and 40/3 within
    200 km (nine cells).  At the point (0.4, 0.4), radius 0 gives the point
    itself, hence one valid cell, and radius 10 km gives nothing: no cell
    centre is that close. *)
Lemma radius_monotonicity_fails :
  ((Qabs (fst (0, 0)%Q) <= 60)%Q ∧ (120 <= 200)%Q ∧
   ∃ v1 v2,
     fst (Fixture.variance "hills" [(0, 0)%Q] 120%Q Fixture.start) = Ok [Some v1] ∧
     fst (Fixture.variance "hills" [(0, 0)%Q] 200%Q Fixture.start) = Ok [Some v2] ∧
     (v2 < v1)%Q) ∧
  ((Qabs (fst (2 # 5, 2 # 5)%Q) <= 60)%Q ∧ (0 <= 10)%Q ∧
   neighbourhood_values Fixture.points_within_distance Fixture.hills (-9999)%Q
     (5 # 2, - 5 # 2)%Q (1, 1)%Q (5, 5)%Z 0%Q (2 # 5, 2 # 5)%Q = Ok [0%Q] ∧
   neighbourhood_values Fixture.points_within_distance Fixture.hills (-9999)%Q
     (5 # 2, - 5 # 2)%Q (1, 1)%Q (5, 5)%Z 10%Q (2 # 5, 2 # 5)%Q = Ok [] ∧
   fst (Fixture.average "hills" [(2 # 5, 2 # 5)%Q] 0%Q Fixture.start)
     = Ok [Some 0%Q] ∧
   fst (Fixture.average "hills" [(2 # 5, 2 # 5)%Q] 10%Q Fixture.start)
     = Ok [None]).
Proof.
  split.
  - split; [vm_compute; discriminate|]. split; [vm_compute; discriminate|].
    eexists _, _. split; [vm_compute; reflexivity|].
    split; [vm_compute; reflexivity|]. reflexivity.
  - split; [vm_compute; discriminate|]. split; [vm_compute; discriminate|].
    repeat split; vm_compute; reflexivity.
Qed.

(** ** Headers that do not change *)

Lemma md_lookup_subseteq (md1 md2 : gmap string (gmap string Q)) file key h :
  md1 ⊆ md2 → md1 !! file = Some h →
  md_lookup md2 file key = md_lookup md1 file key.
Proof.
  intros Hsub Hf. unfold md_lookup.
  by rewrite Hf, (lookup_weaken _ _ _ _ Hf Hsub).
Qed.

Lemma md_lookup_Ok md file key v :
  md_lookup md file key = Ok v → ∃ h, md !! file = Some h.
Proof. unfold md_lookup. destruct (md !! file); [eauto|discriminate]. Qed.

Section Headers.

Variable find_data : string → option string.
Variable gdal_Open : string → dataset.
Variable read_header :
  string → gmap string (gmap string Q) → option exn * gmap string (gmap string Q).
Variable points_within_distance : Q * Q → Q → Q * Q → Q * Q → list (Q * Q).
Variable provider : string → result (gmap string Q).

Hypothesis read_header_provider :
  ∀ v md, read_header v md = header_reader provider v md.

Abbreviation get_dataset := (get_dataset find_data gdal_Open read_header).
Abbreviation extract_attributes :=
  (extract_attributes find_data gdal_Open read_header).
Abbreviation reachable :=
  (reachable find_data gdal_Open read_header points_within_distance).
Abbreviation run := (run find_data gdal_Open read_header points_within_distance).

(** The header test and the return of [get_dataset], with the header
    reader of the spec. *)
Lemma header_then_return_provider file d s r s1 :
  header_then_return read_header file d s = (r, s1) →
  loaded_datasets s1 = loaded_datasets s ∧
  ((is_Some (metadata s !! file) ∧ r = Ok d ∧ metadata s1 = metadata s) ∨
   (metadata s !! file = None ∧
    ((∃ h, provider (drop_last 4 file) = Ok h ∧ r = Ok d ∧
           metadata s1 = <[drop_last 4 file := h]> (metadata s)) ∨
     (∃ e, provider (drop_last 4 file) = Raise e ∧ r = Raise e ∧
           metadata s1 = metadata s)))).
Proof using read_header_provider.
  clear points_within_distance find_data gdal_Open.
  unfold header_then_return, call_read_header.
  destruct (metadata s !! file) as [h0|] eqn:Hm.
  - intros [= <- <-]. split; [reflexivity|]. left. eauto.
  - rewrite read_header_provider. unfold header_reader.
    destruct (provider (drop_last 4 file)) as [h|e]; intros [= <- <-]; simpl;
      (split; [reflexivity|]); right; (split; [reflexivity|]); eauto.
Qed.

Lemma get_dataset_provider file s r s1 :
  get_dataset file s = (r, s1) →
  loaded_datasets s ⊆ loaded_datasets s1 ∧
  (metadata s1 = metadata s ∨
   ∃ h, provider (drop_last 4 (bil_name file)) = Ok h ∧
        metadata s1 = <[drop_last 4 (bil_name file) := h]> (metadata s)) ∧
  (∀ d, r = Ok d →
        loaded_datasets s1 !! bil_name file = Some d ∧
        ((is_Some (metadata s !! bil_name file) ∧ metadata s1 = metadata s) ∨
         (metadata s !! bil_name file = None ∧
          ∃ h, provider (drop_last 4 (bil_name file)) = Ok h ∧
               metadata s1 = <[drop_last 4 (bil_name file) := h]> (metadata s)))).
Proof using read_header_provider.
  clear points_within_distance.
  destruct (get_dataset_cases find_data gdal_Open read_header file s)
    as [(d & Hd & ->)|[(Hd & Hf & ->)|(path & Hd & Hf & ->)]].
  - intros Hrun.
    destruct (header_then_return_provider _ _ _ _ _ Hrun) as (Hl & Hcases).
    rewrite Hl. split; [reflexivity|].
    destruct Hcases as [(Hm & -> & Hmd)|(Hm & [(h & Hp & -> & Hmd)|(e & Hp & -> & Hmd)])].
    + split; [by left|]. intros d' [= <-]. split; [exact Hd|]. by left.
    + split; [right; eauto|]. intros d' [= <-]. split; [exact Hd|]. right. eauto.
    + split; [by left|]. intros d' [=].
  - intros [= <- <-]. simpl. split; [reflexivity|]. split; [by left|]. intros d [=].
  - intros Hrun.
    destruct (header_then_return_provider _ _ _ _ _ Hrun) as (Hl & Hcases).
    rewrite Hl. simpl in *. split; [by apply insert_subseteq|].
    destruct Hcases as [(Hm & -> & Hmd)|(Hm & [(h & Hp & -> & Hmd)|(e & Hp & -> & Hmd)])].
    + split; [by left|]. intros d' [= <-].
      split; [apply lookup_insert_eq|]. by left.
    + split; [right; eauto|]. intros d' [= <-].
      split; [apply lookup_insert_eq|]. right. eauto.
    + split; [by left|]. intros d' [=].
Qed.

Lemma get_dataset_headers file s :
  headers_from provider (metadata s) →
  metadata s ⊆ metadata (snd (get_dataset file s)) ∧
  headers_from provider (metadata (snd (get_dataset file s))).
Proof using read_header_provider.
  clear points_within_distance.
  intros Hfrom.
  destruct (get_dataset file s) as [r s1] eqn:Hrun.
  destruct (get_dataset_provider _ _ _ _ Hrun)
    as (_ & [Hsame|(h & Hp & Hins)] & _); simpl.
  { rewrite Hsame. split; [reflexivity|exact Hfrom]. }
  rewrite Hins.
  split.
  - destruct (metadata s !! drop_last 4 (bil_name file)) as [h0|] eqn:H0.
    + rewrite (Hfrom _ _ H0) in Hp. injection Hp as ->.
      by rewrite insert_id.
    + by apply insert_subseteq.
  - intros v h'. rewrite lookup_insert. case_decide as Hv.
    + intros [= <-]. by subst v.
    + apply Hfrom.
Qed.

(** Once [extract_attributes] has returned the attributes of a layer,
    it returns the same attributes from every state that holds at least
    the cache and the headers of the state it left. *)
Lemma extract_attributes_stable file s attrs s1 s2 :
  extract_attributes file s = (Ok attrs, s1) →
  loaded_datasets s1 ⊆ loaded_datasets s2 →
  metadata s1 ⊆ metadata s2 →
  ∃ s3, extract_attributes file s2 = (Ok attrs, s3) ∧ metadata s3 = metadata s2.
Proof using read_header_provider.
  clear points_within_distance.
  destruct attrs as [[[[[data raster] no_value] ul] dims] size].
  intros He Hloaded Hmeta.
  destruct (extract_attributes_inv _ _ _ _ _ _ _ _ _ _ _ _ He)
    as (Hg & -> & -> & Hy & Hx & Hyd & Hxd & ->).
  destruct (get_dataset_provider _ _ _ _ Hg) as (_ & _ & Hok).
  destruct (Hok data eq_refl) as [Hd Hfirst]. clear Hok.
  destruct (md_lookup_Ok _ _ _ _ Hy) as [hf Hhf].
  assert (Hd2 : loaded_datasets s2 !! bil_name file = Some data)
    by exact (lookup_weaken _ _ _ _ Hd Hloaded).
  assert (Hg2 : ∃ s3, get_dataset file s2 = (Ok data, s3) ∧
                      metadata s3 = metadata s2).
  { rewrite (get_dataset_cached find_data gdal_Open read_header _ _ _ Hd2).
    destruct (header_then_return read_header (bil_name file) data s2)
      as [r s3] eqn:Hrun.
    destruct (header_then_return_provider _ _ _ _ _ Hrun)
      as (_ & [(_ & -> & Hm3)|(Hm2 & Hread)]); [eauto|].
    destruct Hfirst as [([h1 H1] & Hsame)|(_ & h & Hp & Hins)].
    - rewrite <- Hsame in H1.
      by rewrite (lookup_weaken _ _ _ _ H1 Hmeta) in Hm2.
    - destruct Hread as [(h' & Hp' & -> & Hm3)|(e & Hp' & _)]; [|congruence].
      exists s3. split; [reflexivity|]. rewrite Hm3.
      rewrite Hp in Hp'. injection Hp' as <-.
      apply insert_id. apply (lookup_weaken (metadata s1)); [|exact Hmeta].
      rewrite Hins. apply lookup_insert_eq. }
  destruct Hg2 as (s3 & Hg2 & Hm3). exists s3. split; [|exact Hm3].
  unfold_extract_attributes. unfold bindM, liftR. rewrite Hg2, Hm3.
  rewrite !(md_lookup_subseteq _ _ _ _ _ Hmeta Hhf).
  rewrite Hy, Hx, Hyd, Hxd. simpl. unfold float.
  by rewrite <- !surjective_pairing.
Qed.

(** C9. In a process that started with an empty cache, with headers that
    come from the spec's metadata provider: no key was ever given to
    [gdal.Open] twice, and the keys opened are the keys cached; whatever
    call comes next, every cached entry is still there with the same
    dataset, and every header that [metadata] holds is still there with the
    same fields; a call on a cached name opens nothing, leaves the cache
    as it is, and its [get_dataset] can only return the cached dataset;
    and once [extract_attributes] has returned the geometry of a layer, it
    returns the same dataset, raster, sentinel, origin, cell size and
    raster size from every later state. *)
Theorem cached_layers_are_never_changed s :
  reachable s →
  headers_from provider (metadata s) →
  NoDup (opened (trace s)) ∧
  (∀ k, k ∈ opened (trace s) ↔ is_Some (loaded_datasets s !! k)) ∧
  (∀ c, loaded_datasets s ⊆ loaded_datasets (run c s) ∧
        metadata s ⊆ metadata (run c s) ∧
        reachable (run c s) ∧
        headers_from provider (metadata (run c s))) ∧
  (∀ c d, loaded_datasets s !! bil_name (call_file c) = Some d →
          loaded_datasets (run c s) = loaded_datasets s ∧
          opened (trace (run c s)) = opened (trace s) ∧
          ∀ d', fst (get_dataset (call_file c) s) = Ok d' → d' = d) ∧
  (∀ file attrs s1 s2,
      extract_attributes file s = (Ok attrs, s1) →
      loaded_datasets s1 ⊆ loaded_datasets s2 →
      metadata s1 ⊆ metadata s2 →
      ∃ s3, extract_attributes file s2 = (Ok attrs, s3)).
Proof using read_header_provider.
  intros Hs Hfrom.
  destruct (layer_cache_is_write_once find_data gdal_Open read_header
              points_within_distance s Hs) as (Hnd & Hlog & Hsub & Hhit & _).
  split; [exact Hnd|]. split; [exact Hlog|]. split; [|split; [exact Hhit|]].
  - intros c. split; [apply Hsub|].
    rewrite (run_get_dataset find_data gdal_Open read_header points_within_distance).
    destruct (get_dataset_headers (call_file c) s Hfrom) as [Hm Hf].
    split; [exact Hm|]. split; [|exact Hf].
    rewrite <- (run_get_dataset find_data gdal_Open read_header
                  points_within_distance).
    by constructor.
  - intros file attrs s1 s2 He Hl Hm.
    destruct (extract_attributes_stable file s attrs s1 s2 He Hl Hm) as (s3 & ? & _).
    eauto.
Qed.

End Headers.

(** ** The running sum in the element type of the raster *)

(** Where the addition of the scalars is exact at every step, the running
    sum is the sum. *)
Lemma sum_with_exact_along add (values : list Q) (acc : Q) :
  exact_along add acc values →
  (fold_left add values acc == acc + total values)%Q.
Proof.
  revert acc; induction values as [|x rest IH]; intros acc; simpl.
  - intros _. ring.
  - intros [Hx Hrest]. rewrite (IH _ Hrest), Hx. ring.
Qed.

(** With such an addition the loop of [get_average] returns the
    arithmetic mean of the observed cells. *)
Lemma average_at_with_exact_along
    add points_within_distance raster no_value ul dims size radius point cells :
  mapR (getitem raster)
    (raster_positions points_within_distance ul dims size radius point) = Ok cells →
  observed no_value cells ≠ [] →
  exact_along add 0%Q (observed no_value cells) →
  ∃ m, average_at_with add points_within_distance raster no_value ul dims size
         radius point = Ok (Some m) ∧
       (m == arithmetic_mean (observed no_value cells))%Q.
Proof.
  intros Hc Hne Hexact. unfold average_at_with.
  rewrite (neighbourhood_values_cells _ _ no_value _ _ _ _ _ _ Hc). simpl.
  destruct (observed no_value cells) as [|c cs] eqn:Hobs; [done|]. simpl length.
  eexists. split; [reflexivity|].
  unfold sum_with, arithmetic_mean, float, len.
  rewrite (sum_with_exact_along add _ _ Hexact). simpl length.
  apply Qmult_comp; [ring|reflexivity].
Qed.

(** C4. On a raster of 16-bit integers whose running sum stays in that
    type, the sum wraps.  Around the point (0, 0) of [ridge] the cells
    within 120 km are 20000, three times the sentinel, and 20000: the sum
    of the two observed cells wraps to -25536 and [get_average] returns
    -12768, where the arithmetic mean of the observed cells is 20000, which
    is what the same loop returns with an exact addition. *)
Theorem int16_sum_wraps_in_get_average :
  mapR (getitem Ridge.ridge)
    (raster_positions Fixture.points_within_distance
       (5 # 2, - 5 # 2)%Q (1, 1)%Q (5, 5)%Z 120%Q (0, 0)%Q)
    = Ok [20000; -9999; -9999; -9999; 20000]%Q ∧
  observed (-9999) [20000; -9999; -9999; -9999; 20000]%Q = [20000; 20000]%Q ∧
  sum_with int16_add [20000; 20000]%Q = (-25536)%Q ∧
  (∃ m, fst (Ridge.average int16_add "ridge" [(0, 0)%Q] 120%Q Fixture.start)
          = Ok [Some m] ∧ (m == -12768)%Q) ∧
  (arithmetic_mean [20000; 20000] == 20000)%Q ∧
  (∃ m, fst (Ridge.average Qplus "ridge" [(0, 0)%Q] 120%Q Fixture.start)
          = Ok [Some m] ∧ (m == 20000)%Q).
Proof.
  split; [vm_compute; reflexivity|]. split; [vm_compute; reflexivity|].
  split; [vm_compute; reflexivity|]. split.
  - eexists. split; [vm_compute; reflexivity|reflexivity].
  - split; [reflexivity|].
    eexists. split; [vm_compute; reflexivity|reflexivity].
Qed.

(** ** The headers of the layers on the equator *)

Lemma equator_read_header_provider v md :
  Fixture.read_header v md = header_reader equator_provider v md.
Proof.
  unfold Fixture.read_header, header_reader, equator_provider.
  destruct (String.eqb v "lake"); reflexivity.
Qed.

(** After [hills] was loaded and [get_average] was called on [lake],
    [extract_attributes] returns for [hills] what it returned the first
    time. *)
Lemma cached_layers_are_never_changed_witness :
  ∃ s3,
    extract_attributes Fixture.find_data Fixture.gdal_Open Fixture.read_header
      "hills"
      (run Fixture.find_data Fixture.gdal_Open Fixture.read_header
         Fixture.points_within_distance
         (CallGetAverage "lake" [(0, 0)%Q] 120%Q) Fixture.hills_loaded)
    = (Ok (Fixture.gdal_Open "data/hills.bil", Fixture.hills, (-9999)%Q,
           (5 # 2, - 5 # 2)%Q, (1, 1)%Q, (5, 5)%Z), s3).
Proof.
  assert (Hstart : reachable Fixture.find_data Fixture.gdal_Open Fixture.read_header
                     Fixture.points_within_distance Fixture.start)
    by apply reachable_start.
  assert (Hempty : headers_from equator_provider (metadata Fixture.start)).
  { intros v h Hv. simpl in Hv. by rewrite lookup_empty in Hv. }
  destruct (cached_layers_are_never_changed Fixture.find_data Fixture.gdal_Open
              Fixture.read_header Fixture.points_within_distance equator_provider
              equator_read_header_provider Fixture.start Hstart Hempty)
    as (_ & _ & Hstep & _ & Hstable).
  destruct (Hstep (CallExtractAttributes "hills")) as (_ & _ & Hr & Hf).
  destruct (cached_layers_are_never_changed Fixture.find_data Fixture.gdal_Open
              Fixture.read_header Fixture.points_within_distance equator_provider
              equator_read_header_provider _ Hr Hf)
    as (_ & _ & Hstep2 & _).
  destruct (Hstep2 (CallGetAverage "lake" [(0, 0)%Q] 120%Q)) as (Hl & Hm & _).
  exact (Hstable "hills" _ Fixture.hills_loaded _ hills_attributes Hl Hm).
Defined.
